(** * dr.spark_alarm: the fetch / parse / dedup / notify pipeline

    A shallow embedding of [source.py] (the DrSpark marketplace watcher) and
    the properties of its seen-store, extractor, fetcher, notifier and
    pipeline runner.

    Conventions of the embedding.
    - A Python [str] is the list of its Unicode code points ([str]).
    - A Python [int] is a [Z]; a Python [float] holding a duration is a
      rational [Q] (rounding, NaN and infinities are not represented).
    - Code that touches the outside world (sqlite, the clock, the network,
      the logger) runs in the monad [M]: a function of the [World] that
      returns a result or a raised exception together with the new world.
      A raised exception keeps the effects performed before it.
    - Whatever the outside world and the third-party libraries decide
      (HTTP replies, clock readings, the Unicode database, [urljoin],
      BeautifulSoup's selectors, [strftime]) is read from an [Env].
    - The libraries the program configures are modelled by what they do
      with that configuration: sqlite's table with its primary key and
      the 64-bit range of its INTEGER, the digit limit of [int()],
      urllib3's [Retry] loop, the redirects the session follows,
      requests' [raise_for_status].  Left out: the [ValueError] of
      [urljoin] on a malformed bracketed host, and the sqlite failures
      that come from the file system. *)

From Stdlib Require Import List ZArith NArith QArith Bool Lia String Ascii.
From Stdlib Require Import Sorted.
Import ListNotations.

Set Implicit Arguments.

(** ** Python strings *)

Definition str : Type := list N.

Module PyStr.

(** A literal written in ASCII. *)
Definition lit (s : string) : str := map N_of_ascii (list_ascii_of_string s).

Fixpoint eqb (a b : str) : bool :=
  match a, b with
  | [], [] => true
  | x :: a', y :: b' => N.eqb x y && eqb a' b'
  | _, _ => false
  end.

(** [str.isspace] on one code point, which is what [str.strip()] removes. *)
Definition isspace (c : N) : bool :=
  ((9 <=? c) && (c <=? 13) || (28 <=? c) && (c <=? 32)
   || (c =? 133) || (c =? 160) || (c =? 5760)
   || (8192 <=? c) && (c <=? 8202)
   || (c =? 8232) || (c =? 8233) || (c =? 8239) || (c =? 8287)
   || (c =? 12288))%N.

Fixpoint lstrip (s : str) : str :=
  match s with
  | c :: s' => if isspace c then lstrip s' else s
  | [] => []
  end.

Definition rstrip (s : str) : str := rev (lstrip (rev s)).

Definition strip (s : str) : str := rstrip (lstrip s).

Fixpoint startswith (s prefix : str) {struct prefix} : bool :=
  match prefix, s with
  | [], _ => true
  | p :: prefix', c :: s' => N.eqb c p && startswith s' prefix'
  | _ :: _, [] => false
  end.

(** [s.replace(a, b)] for one-character [a] and [b]. *)
Definition replace1 (a b : N) (s : str) : str :=
  map (fun c => if N.eqb c a then b else c) s.

(** [s[:n]] *)
Definition slice_to (n : nat) (s : str) : str := firstn n s.

(** [sep.join(parts)] *)
Fixpoint join (sep : str) (parts : list str) : str :=
  match parts with
  | [] => []
  | [p] => p
  | p :: rest => p ++ sep ++ join sep rest
  end.

(** [x in xs] for a list of strings. *)
Definition mem (x : str) (xs : list str) : bool := existsb (eqb x) xs.

(** Truthiness of a string: non-empty. *)
Definition truthy (s : str) : bool :=
  match s with [] => false | _ => true end.

End PyStr.

(** ** Data model *)

(** The dict built by [parse_list]; [date] is the key [is_new] adds. *)
Record Item := mkItem {
  id : str;
  url : str;
  title : str;
  raw_price : option Z;
  price : option str;
  status : list str;
  author : str;
  age : str;
  thumb : option str;
  views : str;
  comments : str;
  date : option Z
}.

Definition set_date (it : Item) (ts : Z) : Item :=
  mkItem (id it) (url it) (title it) (raw_price it) (price it) (status it)
         (author it) (age it) (thumb it) (views it) (comments it) (Some ts).

(** A row of the table [seen]. *)
Record SeenEntry := mkSeen {
  post_id : str;
  first_seen_ts : Z;
  product_name : str;
  seen_price : option Z
}.

(** The JSON document posted to the webhook. *)
Record Field := mkField { f_name : str; f_value : str; f_inline : bool }.

Record Embed := mkEmbed {
  e_title : str;
  e_url : str;
  e_color : Z;
  e_fields : list Field;
  e_thumbnail : option str
}.

Record Payload := mkPayload { p_content : option str; p_embeds : list Embed }.

(** What [r.json()] finds in a reply body, as far as [discord_send] looks. *)
Inductive JsonValue :=
| JNumber (q : Q)
| JBool (b : bool)
| JString (s : str)
| JNull
| JContainer.

Inductive JsonBody :=
| NotJson
| JsonObject (retry_after : option JsonValue)
| JsonNotObject.

Record Response := mkResponse {
  status_code : Z;
  text : str;
  retry_after_header : option Q;   (* Retry-After, parsed to seconds *)
  json : JsonBody;
  location : option str            (* Location, resolved to an absolute URL *)
}.

Inductive Exc :=
| HTTPError (status : Z)
| ConnectionError
| Timeout
| TooManyRedirects
| ValueError
| TypeError
| AttributeError
| OverflowError
| IntegrityError.

(** [isinstance(e, requests.exceptions.RequestException)] *)
Definition is_RequestException (e : Exc) : bool :=
  match e with
  | HTTPError _ | ConnectionError | Timeout | TooManyRedirects => true
  | _ => false
  end.

(** One transport-level exchange: a reply, or a connection-level failure. *)
Inductive Exchange :=
| Replies (r : Response)
| Fails (e : Exc).

Inductive Level := DEBUG | INFO | WARNING | ERROR.

Inductive LogMsg :=
| MsgFetching (u : str)
| MsgHttpStatus (status : Z) (u : str) (snippet : str)
| MsgFetchFailed (u : str) (e : Exc)
| MsgParsed (n : nat)
| MsgFiltered (i : str)
| MsgNew (t u : str)
| MsgSeen (i : str)
| MsgRunOnceFailed (e : Exc)
| MsgNoWebhook
| MsgSendAttempt (attempt max_attempts : Z) (t : str)
| MsgSentOk (status : Z) (t : str)
| MsgRateLimited (wait : Q) (attempt : Z)
| MsgDiscordHttp (status : Z) (t : str) (snippet : str)
| MsgPostFailed (attempt max_attempts : Z) (t : str) (e : Exc).

(** Everything observable that the program does, in order.  [Enter_is_new]
    and [Enter_discord_send] mark the calls of those two functions. *)
Inductive Event :=
| Enter_is_new (it : Item)
| Enter_discord_send (it : Item)
| SqlSelect (post : str)
| SqlInsert (row : SeenEntry)
| HttpGet (u : str)
| HttpPost (u : str) (body : Payload)
| Sleep (secs : Q)
| Log (lvl : Level) (m : LogMsg).

(** ** The world and the environment *)

Record World := mkWorld {
  seen : list SeenEntry;   (* the table [seen] of drspark_seen.db *)
  clock_reads : nat;       (* calls of time.time() so far *)
  gets : nat;              (* GET exchanges so far *)
  posts : nat;             (* POST exchanges so far *)
  trace : list Event
}.

(** A listing card as the selectors of [parse_list] see it: each field is
    what the corresponding [select_one] / [select] / [get] call returns. *)
Record Card := mkCard {
  c_href : option str;               (* a.get("href", "") *)
  c_subject : option str;            (* .subject, get_text(strip=True) *)
  c_thumb : option (option str);     (* the img element, then its src *)
  c_price : option str;              (* the styled span, get_text(strip=True) *)
  c_status : list str;               (* every .status_icon, in order *)
  c_author : option str;
  c_date : option str;
  c_etc : list (str * option str)    (* each metadata row: its text, its span *)
}.

Record Env := mkEnv {
  DISCORD_WEBHOOK : option str;             (* os.getenv("DISCORD_WEBHOOK_URL") *)
  time_time : nat -> Q;                     (* k-th reading of time.time() *)
  get_exchange : nat -> str -> Exchange;    (* k-th GET exchange, by URL *)
  post_exchange : nat -> str -> Payload -> Exchange;
  to_decimal : N -> option N;               (* Unicode decimal digit value *)
  urljoin : str -> str -> str;              (* urllib.parse.urljoin *)
  select_cards : str -> list Card;          (* BeautifulSoup + the selectors *)
  strftime : Z -> str;                      (* fromtimestamp(..).strftime(..) *)
  float_of_str : str -> option Q            (* float(s) on a string *)
}.

(** ** The effect monad *)

Inductive Result (A : Type) :=
| Ok (a : A)
| Raise (e : Exc).

Arguments Raise {A} e.

Definition M (A : Type) : Type := World -> Result A * World.

Definition ret {A} (a : A) : M A := fun w => (Ok a, w).

Definition bind {A B} (c : M A) (k : A -> M B) : M B :=
  fun w => match c w with
           | (Ok a, w') => k a w'
           | (Raise e, w') => (Raise e, w')
           end.

Definition raise {A} (e : Exc) : M A := fun w => (Raise e, w).

(** [try: c  except <class p> as e: h e] *)
Definition try_except {A} (c : M A) (p : Exc -> bool) (h : Exc -> M A) : M A :=
  fun w => match c w with
           | (Ok a, w') => (Ok a, w')
           | (Raise e, w') => if p e then h e w' else (Raise e, w')
           end.

Declare Scope py_scope.
Delimit Scope py_scope with py.
Notation "x <- c ;; k" := (bind c (fun x => k))
  (at level 61, c at next level, right associativity) : py_scope.
Notation "' pat <- c ;; k" := (bind c (fun x => match x with pat => k end))
  (at level 61, pat pattern, c at next level, right associativity) : py_scope.
Notation "c ;; k" := (bind c (fun _ => k))
  (at level 61, right associativity) : py_scope.
Open Scope py_scope.

Definition emit (ev : Event) : M unit :=
  fun w => (Ok tt, mkWorld (seen w) (clock_reads w) (gets w) (posts w)
                           (trace w ++ [ev])).

Definition log (lvl : Level) (m : LogMsg) : M unit := emit (Log lvl m).

(** [int(x)] on a float: truncation toward zero. *)
Definition int_of_float (q : Q) : Z := Z.quot (Qnum q) (Zpos (Qden q)).

(** [time.time()] *)
Definition read_clock (env : Env) : M Q :=
  fun w => (Ok (time_time env (clock_reads w)),
            mkWorld (seen w) (S (clock_reads w)) (gets w) (posts w) (trace w)).

(** [time.sleep(secs)]: a negative length is a [ValueError]. *)
Definition sleep (secs : Q) : M unit :=
  if Qle_bool 0 secs then emit (Sleep secs) else raise ValueError.

(** ** Seen store *)

Definition known_in (rows : list SeenEntry) (p : str) : bool :=
  existsb (fun r => PyStr.eqb (post_id r) p) rows.

(** Number of rows whose [post_id] is [p]. *)
Definition rows_for (rows : list SeenEntry) (p : str) : nat :=
  List.length (filter (fun r => PyStr.eqb (post_id r) p) rows).

(** [SELECT 1 FROM seen WHERE post_id=?] followed by [fetchone() is not None] *)
Definition select_seen (p : str) : M bool :=
  fun w => (Ok (known_in (seen w) p),
            mkWorld (seen w) (clock_reads w) (gets w) (posts w)
                    (trace w ++ [SqlSelect p])).

(** An [int] that sqlite3 can bind as an INTEGER: the signed 64-bit range. *)
Definition fits_int64 (z : Z) : bool :=
  ((- 2 ^ 63 <=? z) && (z <? 2 ^ 63))%Z.

(** A row whose two integer columns can be bound. *)
Definition bindable (row : SeenEntry) : bool :=
  fits_int64 (first_seen_ts row)
  && match seen_price row with
     | Some p => fits_int64 p
     | None => true
     end.

(** [INSERT INTO seen ... ; commit].  Binding an [int] outside the 64-bit
    range raises [OverflowError] before the statement runs, and nothing is
    stored; the primary key rejects a second row for a [post_id]. *)
Definition insert_seen (row : SeenEntry) : M unit :=
  fun w => if negb (bindable row) then (Raise OverflowError, w)
           else if known_in (seen w) (post_id row)
           then (Raise IntegrityError, w)
           else (Ok tt, mkWorld (seen w ++ [row]) (clock_reads w) (gets w)
                                (posts w) (trace w ++ [SqlInsert row])).

(** [is_new] returns its verdict and the item, whose [date] it may have set:
    the caller keeps using the same dict. *)
Definition is_new (env : Env) (item : Item) : M (bool * Item) :=
  emit (Enter_is_new item) ;;
  known <- select_seen (id item) ;;
  if negb known then
    now <- read_clock env ;;
    let item' := set_date item (int_of_float now) in
    insert_seen (mkSeen (id item') (int_of_float now) (title item')
                        (raw_price item')) ;;
    ret (true, item')
  else
    ret (false, item).

(** ** HTML extractor *)

Definition BASE : str := PyStr.lit "https://www.drspark.net".
Definition LIST_URL : str := PyStr.lit "https://www.drspark.net/ski_sell2".

(** The class [\d] of a [str] pattern: the Unicode decimal digits. *)
Definition is_digit (env : Env) (c : N) : bool :=
  match to_decimal env c with Some _ => true | None => false end.

Fixpoint take_while (p : N -> bool) (s : str) : str :=
  match s with
  | c :: s' => if p c then c :: take_while p s' else []
  | [] => []
  end.

Fixpoint drop_while (p : N -> bool) (s : str) : str :=
  match s with
  | c :: s' => if p c then drop_while p s' else s
  | [] => []
  end.

(** [POST_ID_RE.search(href)] with [POST_ID_RE = /(\d{5,})$]: the digits
    that end the string, when there are five or more of them right after a
    slash.  [$] matches at the end of the string and also just before a
    newline that ends it.  The result is group 1. *)
Definition POST_ID_RE_search (env : Env) (href : str) : option str :=
  let back := match rev href with
              | c :: r => if (c =? 10)%N then r else c :: r
              | [] => []
              end in
  let ds := take_while (is_digit env) back in
  match drop_while (is_digit env) back with
  | c :: _ =>
      if (c =? 47)%N && (5 <=? List.length ds)%nat then Some (rev ds) else None
  | [] => None
  end.

(** [re.sub(r"[^\d]", "", price)] *)
Definition only_digits (env : Env) (s : str) : str := filter (is_digit env) s.

(** The value of a string of decimal digits, read left to right. *)
Definition horner (env : Env) (digits : str) : Z :=
  fold_left
    (fun acc c => 10 * acc + match to_decimal env c with
                             | Some d => Z.of_N d
                             | None => 0
                             end)%Z
    digits 0%Z.

(** [sys.get_int_max_str_digits()], which the program leaves at its default. *)
Definition int_max_str_digits : N := 4300.

(** [int(digits)] on a string of decimal digits: a [ValueError] when there
    are more digits than the interpreter converts. *)
Definition int_of_digits (env : Env) (digits : str) : Result Z :=
  if (int_max_str_digits <? N.of_nat (List.length digits))%N
  then Raise ValueError
  else Ok (horner env digits).

Definition _norm_img (env : Env) (src : option str) : option str :=
  match src with
  | None => None
  | Some src =>
      if negb (PyStr.truthy src) then None
      else
        let s := PyStr.strip src in
        if PyStr.startswith s (PyStr.lit "//")
        then Some (PyStr.lit "https:" ++ s)
        else Some (urljoin env BASE s)
  end.

(** Lines 152-160: the pair [(raw_price, price)]. *)
Definition parse_price (env : Env) (price_el : option str)
  : Result (option Z * option str) :=
  match price_el with
  | Some price =>
      let digits := only_digits env price in
      if PyStr.truthy digits then
        match int_of_digits env digits with
        | Ok n => Ok (Some n, Some price)
        | Raise e => Raise e
        end
      else Ok (None, Some price)
  | None => Ok (None, None)
  end.

Definition or_empty (o : option str) : str :=
  match o with Some s => s | None => [] end.

Definition VIEWS_LABEL : str := [0xc870; 0xd68c; 0x3a]%N.       (* "조회:" *)
Definition COMMENTS_LABEL : str := [0xb313; 0xae00; 0x3a]%N.    (* "댓글:" *)

(** The loop over the metadata rows, from the pair [(views, comments)]. *)
Fixpoint scan_etc (rows : list (str * option str)) (acc : str * str)
  : str * str :=
  match rows with
  | [] => acc
  | (txt, sp) :: rows' =>
      if PyStr.startswith txt VIEWS_LABEL then scan_etc rows' (or_empty sp, snd acc)
      else if PyStr.startswith txt COMMENTS_LABEL
           then scan_etc rows' (fst acc, or_empty sp)
           else scan_etc rows' acc
  end.

(** One turn of the loop of [parse_list]: [Ok None] is the [continue],
    [Raise] an exception that leaves the loop. *)
Definition parse_card (env : Env) (a : Card) : Result (option Item) :=
  let href := PyStr.strip (or_empty (c_href a)) in
  match POST_ID_RE_search env href with
  | None => Ok None
  | Some pid =>
      let thumb :=
        _norm_img env (match c_thumb a with Some src => src | None => None end) in
      match parse_price env (c_price a) with
      | Raise e => Raise e
      | Ok rp =>
          let vc := scan_etc (c_etc a) ([], []) in
          Ok (Some (mkItem pid (urljoin env BASE href) (or_empty (c_subject a))
                           (fst rp) (snd rp) (c_status a)
                           (or_empty (c_author a)) (or_empty (c_date a))
                           thumb (fst vc) (snd vc) None))
      end
  end.

(** The loop of [parse_list]: the items of the cards in order, unless a
    card raises, which loses the whole list. *)
Fixpoint parse_cards (env : Env) (cards : list Card) : Result (list Item) :=
  match cards with
  | [] => Ok []
  | a :: cards' =>
      match parse_card env a with
      | Raise e => Raise e
      | Ok o =>
          match parse_cards env cards' with
          | Raise e => Raise e
          | Ok items => Ok (match o with
                            | Some it => it :: items
                            | None => items
                            end)
          end
      end
  end.

Definition parse_list (env : Env) (html : str) : M (list Item) :=
  match parse_cards env (select_cards env html) with
  | Raise e => raise e
  | Ok items =>
      log INFO (MsgParsed (List.length items)) ;;
      ret items
  end.

(** ** Fetcher *)

(** The [Retry] object mounted by [get_session]. *)
Definition retry_total : nat := 3.
Definition backoff_factor : Q := 7 # 10.
Definition status_forcelist : list Z := [429; 500; 502; 503; 504]%Z.
(** urllib3's own constants. *)
Definition RETRY_AFTER_STATUS_CODES : list Z := [413; 429; 503]%Z.
Definition DEFAULT_BACKOFF_MAX : Q := 120.

Definition Z_mem (x : Z) (l : list Z) : bool := existsb (Z.eqb x) l.

(** [Retry.is_retry("GET", status, has_retry_after)], with [total] retries
    left. *)
Definition is_retry (total : nat) (r : Response) : bool :=
  Z_mem (status_code r) status_forcelist
  || (negb (Nat.eqb total 0)
      && (match retry_after_header r with Some _ => true | None => false end)
      && Z_mem (status_code r) RETRY_AFTER_STATUS_CODES).

(** [Retry.get_backoff_time()] after [errors] consecutive failures. *)
Definition get_backoff_time (errors : nat) : Q :=
  if (errors <=? 1)%nat then 0
  else
    let v := backoff_factor * inject_Z (2 ^ Z.of_nat (errors - 1)) in
    if Qle_bool v DEFAULT_BACKOFF_MAX then v else DEFAULT_BACKOFF_MAX.

(** [Retry._sleep_backoff()] *)
Definition sleep_backoff (errors : nat) : M unit :=
  let b := get_backoff_time errors in
  if Qle_bool b 0 then ret tt else sleep b.

(** [Retry.sleep(response)]: the Retry-After header when it gives a
    wait above zero (the parser raises what is below to zero), the backoff
    otherwise. *)
Definition retry_sleep (r : Response) (errors : nat) : M unit :=
  match retry_after_header r with
  | Some q => if Qle_bool q 0 then sleep_backoff errors else sleep q
  | None => sleep_backoff errors
  end.

(** One GET exchange on the wire. *)
Definition http_get (env : Env) (u : str) : M Exchange :=
  fun w => (Ok (get_exchange env (gets w) u),
            mkWorld (seen w) (clock_reads w) (S (gets w)) (posts w)
                    (trace w ++ [HttpGet u])).

(** [HTTPAdapter.send] with [max_retries=retry]: urllib3's [urlopen] loop.
    [total] is the number of retries still allowed and [errors] the number
    of failed exchanges so far.  [Retry.increment] takes one from [total]
    and the retry is exhausted when that goes below zero; with
    [raise_on_status=False] an exhausted status retry hands back the last
    response, an exhausted connection retry raises.  The adapter follows
    no redirect itself. *)
Fixpoint urlopen (env : Env) (u : str) (total errors : nat) : M Response :=
  x <- http_get env u ;;
  match x with
  | Fails e =>
      match total with
      | O => raise e
      | S total' =>
          sleep_backoff (S errors) ;; urlopen env u total' (S errors)
      end
  | Replies r =>
      if is_retry total r then
        match total with
        | O => ret r
        | S total' =>
            retry_sleep r (S errors) ;; urlopen env u total' (S errors)
        end
      else ret r
  end.

(** requests' own constants. *)
Definition REDIRECT_STATI : list Z := [301; 302; 303; 307; 308]%Z.
Definition max_redirects : nat := 30.

(** [Session.get_redirect_target]: the URL a reply redirects to, when it
    has a redirect status and a Location header. *)
Definition redirect_target (r : Response) : option str :=
  if Z_mem (status_code r) REDIRECT_STATI then location r else None.

(** [Session.send] with [allow_redirects=True]: send through the adapter,
    then follow the redirects, each with the adapter's [Retry] afresh;
    [hops] is the number of redirects still allowed. *)
Fixpoint resolve_redirects (env : Env) (u : str) (hops : nat) : M Response :=
  r <- urlopen env u retry_total 0 ;;
  match redirect_target r with
  | None => ret r
  | Some u' =>
      match hops with
      | O => raise TooManyRedirects
      | S hops' => resolve_redirects env u' hops'
      end
  end.

(** [get_session().get(url, headers=HEADERS, timeout=15)] *)
Definition session_get (env : Env) (u : str) : M Response :=
  resolve_redirects env u max_redirects.

(** [Response.raise_for_status()] of requests. *)
Definition raise_for_status (r : Response) : M unit :=
  if ((400 <=? status_code r) && (status_code r <? 600))%Z
  then raise (HTTPError (status_code r))
  else ret tt.

Definition fetch_html (env : Env) (u : str) : M str :=
  log INFO (MsgFetching u) ;;
  try_except
    (r <- session_get env u ;;
     (if (400 <=? status_code r)%Z then
        let snippet := PyStr.replace1 10 32 (PyStr.slice_to 500 (text r)) in
        log WARNING (MsgHttpStatus (status_code r) u snippet) ;;
        raise_for_status r
      else ret tt) ;;
     ret (text r))
    is_RequestException
    (fun e => log ERROR (MsgFetchFailed u e) ;; raise e).

(** ** Notifier *)

Definition DASH : str := [0x2014]%N.                                 (* "—" *)
Definition PRICE_NAME : str := [0xac00; 0xaca9]%N.                   (* "가격" *)
Definition STATUS_NAME : str := [0xc0c1; 0xd0dc]%N.                  (* "상태" *)
Definition AUTHOR_NAME : str :=
  [0xc791; 0xc131; 0xc790; 0x2f; 0xc2dc; 0xac04]%N.                  (* "작성자/시간" *)
Definition STATUS_SEP : str := [0x20; 0x2f; 0x20]%N.                 (* " / " *)
Definition AUTHOR_SEP : str := [0x20; 0xb7; 0x20]%N.                 (* " · " *)

(** [s or default] *)
Definition or_else (s default : str) : str :=
  if PyStr.truthy s then s else default.

(** The embed and payload built before the loop, for an item stamped [ts]. *)
Definition build_payload (env : Env) (item : Item) (ts : Z) : Payload :=
  let title := PyStr.strip (title item) in
  let price := or_else (or_empty (price item)) DASH in
  let status := or_else (PyStr.join STATUS_SEP (status item)) DASH in
  let date := strftime env ts in
  let author_age :=
    or_else (PyStr.join AUTHOR_SEP (filter PyStr.truthy [author item; date]))
            DASH in
  mkPayload None
    [mkEmbed title (url item) 16747660
       [mkField PRICE_NAME price true;
        mkField STATUS_NAME status true;
        mkField AUTHOR_NAME author_age false]
       (match thumb item with
        | Some t => if PyStr.truthy t then Some t else None
        | None => None
        end)].

(** One POST exchange on the wire. *)
Definition http_post (env : Env) (u : str) (body : Payload) : M Exchange :=
  fun w => (Ok (post_exchange env (posts w) u body),
            mkWorld (seen w) (clock_reads w) (gets w) (S (posts w))
                    (trace w ++ [HttpPost u body])).

(** [float(v)] on a JSON value. *)
Definition float_of_json (env : Env) (v : JsonValue) : M Q :=
  match v with
  | JNumber q => ret q
  | JBool b => ret (if b then 1 else 0)
  | JString s =>
      match float_of_str env s with
      | Some q => ret q
      | None => raise ValueError
      end
  | JNull | JContainer => raise TypeError
  end.

(** Lines 260-264: [r.json()], [{}] on a [ValueError], then
    [float(data.get("retry_after", 1.0))]. *)
Definition read_retry_after (env : Env) (r : Response) : M Q :=
  match json r with
  | NotJson => ret 1
  | JsonObject None => ret 1
  | JsonObject (Some v) => float_of_json env v
  | JsonNotObject => raise AttributeError
  end.

(** How one turn of the [for attempt] loop ends when it does not raise. *)
Inductive Flow := Returned | NextAttempt.

Definition max_attempts : Z := 3.

(** The body of the loop, for one value of [attempt]. *)
Definition send_attempt (env : Env) (hook t : str) (payload : Payload)
           (attempt : Z) : M Flow :=
  try_except
    (log INFO (MsgSendAttempt attempt max_attempts t) ;;
     x <- http_post env hook payload ;;
     match x with
     | Fails e => raise e
     | Replies r =>
         if ((status_code r =? 204)
             || (200 <=? status_code r) && (status_code r <? 300))%Z
         then
           log INFO (MsgSentOk (status_code r) t) ;;
           ret Returned
         else if (status_code r =? 429)%Z then
           retry_after <- read_retry_after env r ;;
           log WARNING (MsgRateLimited retry_after attempt) ;;
           sleep (retry_after + (1 # 4)) ;;
           ret NextAttempt
         else
           let snippet := PyStr.replace1 10 32 (PyStr.slice_to 300 (text r)) in
           log ERROR (MsgDiscordHttp (status_code r) t snippet) ;;
           raise_for_status r ;;
           ret NextAttempt
     end)
    is_RequestException
    (fun e =>
       log ERROR (MsgPostFailed attempt max_attempts t e) ;;
       if (attempt <? max_attempts)%Z then
         sleep ((3 # 2) * inject_Z attempt) ;;
         ret NextAttempt
       else raise e).

(** [for attempt in attempts: ...]; running off the end of the loop is the
    end of [discord_send], which then returns [None]. *)
Fixpoint send_loop (env : Env) (hook t : str) (payload : Payload)
         (attempts : list Z) : M unit :=
  match attempts with
  | [] => ret tt
  | attempt :: rest =>
      flow <- send_attempt env hook t payload attempt ;;
      match flow with
      | Returned => ret tt
      | NextAttempt => send_loop env hook t payload rest
      end
  end.

(** [range(1, max_attempts + 1)] *)
Definition attempt_range : list Z := [1; 2; 3]%Z.

Definition discord_send (env : Env) (item : Item) : M unit :=
  emit (Enter_discord_send item) ;;
  match DISCORD_WEBHOOK env with
  | None => log WARNING MsgNoWebhook
  | Some hook =>
      if negb (PyStr.truthy hook) then log WARNING MsgNoWebhook
      else
        match date item with
        | None => raise TypeError      (* fromtimestamp(None) *)
        | Some ts =>
            send_loop env hook (PyStr.strip (title item))
                      (build_payload env item ts) attempt_range
        end
  end.

(** ** Pipeline runner *)

Definition IN_PROGRESS : str := [0xad6c; 0xb9e4; 0xc911]%N.          (* "구매중" *)

(** The body of the [for it in parse_list(html)] loop. *)
Definition process_item (env : Env) (it : Item) : M unit :=
  if PyStr.mem IN_PROGRESS (status it) then
    log DEBUG (MsgFiltered (id it))
  else
    ' (fresh, it') <- is_new env it ;;
    if fresh : bool then
      log INFO (MsgNew (title it') (url it')) ;;
      discord_send env it'
    else
      log DEBUG (MsgSeen (id it')).

Fixpoint run_items (env : Env) (items : list Item) : M unit :=
  match items with
  | [] => ret tt
  | it :: rest => process_item env it ;; run_items env rest
  end.

Definition run_once (env : Env) : M unit :=
  try_except
    (html <- fetch_html env LIST_URL ;;
     items <- parse_list env html ;;
     run_items env items)
    (fun _ => true)
    (fun e => log ERROR (MsgRunOnceFailed e)).

(** Successive cycles, one at a time ([max_instances=1]); each cycle meets
    its own environment. *)
Fixpoint run_cycles (envs : list Env) : M unit :=
  match envs with
  | [] => ret tt
  | env :: rest => run_once env ;; run_cycles rest
  end.

(** ** Specification vocabulary *)

(** The digit characters of [s], in order, as digit values. *)
Fixpoint digit_values (env : Env) (s : str) : list N :=
  match s with
  | [] => []
  | c :: s' =>
      match to_decimal env c with
      | Some d => d :: digit_values env s'
      | None => digit_values env s'
      end
  end.

(** The integer a row of digits denotes, most significant first. *)
Fixpoint positional (ds : list N) : Z :=
  match ds with
  | [] => 0
  | d :: ds' => Z.of_N d * 10 ^ Z.of_nat (List.length ds') + positional ds'
  end%Z.

(** An item whose numeric price sqlite3 can bind. *)
Definition price_fits (it : Item) : bool :=
  match raw_price it with
  | Some p => fits_int64 p
  | None => true
  end.

(** The [k]-th clock reading, as an integer, can be bound. *)
Definition clock_fits (env : Env) (k : nat) : bool :=
  fits_int64 (int_of_float (time_time env k)).

(** [grows P R w w']: from [w] to [w'] the table only gained rows, all
    satisfying [R], and the trace only gained events, all satisfying [P]. *)
Definition grows (P : Event -> Prop) (R : SeenEntry -> Prop) (w w' : World)
  : Prop :=
  (exists rows, seen w' = seen w ++ rows /\ Forall R rows) /\
  (exists evs, trace w' = trace w ++ evs /\ Forall P evs).

(** A computation that, from any world, only [grows] it. *)
Definition keeps {A} (P : Event -> Prop) (R : SeenEntry -> Prop) (c : M A)
  : Prop :=
  forall w, grows P R w (snd (c w)).

(** Events other than the two call markers and the INSERT. *)
Definition is_io (ev : Event) : bool :=
  match ev with
  | Enter_is_new _ | Enter_discord_send _ | SqlInsert _ => false
  | _ => true
  end.

(** No call is made on an item tagged in-progress. *)
Definition unflagged_call (ev : Event) : Prop :=
  match ev with
  | Enter_is_new it | Enter_discord_send it =>
      PyStr.mem IN_PROGRESS (status it) = false
  | _ => True
  end.

(** No notification for an identifier that [rows0] already holds. *)
Definition fresh_notify (rows0 : list SeenEntry) (ev : Event) : Prop :=
  match ev with
  | Enter_discord_send it => known_in rows0 (id it) = false
  | _ => True
  end.

Definition fresh_row (rows0 : list SeenEntry) (r : SeenEntry) : Prop :=
  known_in rows0 (post_id r) = false.

(** What the runner guarantees of every event when it starts from a table
    that extends [rows0]. *)
Definition call_ok (rows0 : list SeenEntry) (ev : Event) : Prop :=
  unflagged_call ev /\ fresh_notify rows0 ev.

(** The world after one more POST exchange and the events [evs]. *)
Definition after_post (w : World) (evs : list Event) : World :=
  mkWorld (seen w) (clock_reads w) (gets w) (S (posts w)) (trace w ++ evs).

(** The first 300 characters of a reply body, on one line. *)
Definition snippet300 (r : Response) : str :=
  PyStr.replace1 10 32 (PyStr.slice_to 300 (text r)).

(** The events of an attempt answered by a status that is neither success,
    nor 429, nor an error for [raise_for_status]. *)
Definition ignored_attempt (hook t : str) (body : Payload) (k : Z)
           (r : Response) : list Event :=
  [Log INFO (MsgSendAttempt k max_attempts t);
   HttpPost hook body;
   Log ERROR (MsgDiscordHttp (status_code r) t (snippet300 r))].

(** The events of an attempt answered by 429 with a wait of [q] seconds. *)
Definition limited_attempt (hook t : str) (body : Payload) (k : Z) (q : Q)
  : list Event :=
  [Log INFO (MsgSendAttempt k max_attempts t);
   HttpPost hook body;
   Log WARNING (MsgRateLimited q k);
   Sleep (q + (1 # 4))].

(** The first 500 characters of a reply body, on one line. *)
Definition snippet500 (r : Response) : str :=
  PyStr.replace1 10 32 (PyStr.slice_to 500 (text r)).

(** An exchange after which the session may try again: a connection-level
    failure, a status of the force list, or a 413/429/503 that carries a
    Retry-After header. *)
Definition retryable (x : Exchange) : bool :=
  match x with
  | Fails _ => true
  | Replies r =>
      Z_mem (status_code r) status_forcelist
      || (match retry_after_header r with Some _ => true | None => false end)
         && Z_mem (status_code r) RETRY_AFTER_STATUS_CODES
  end.


(** The sleeps of a trace, in order. *)
Fixpoint sleeps (evs : list Event) : list Q :=
  match evs with
  | [] => []
  | Sleep q :: evs' => q :: sleeps evs'
  | _ :: evs' => sleeps evs'
  end.


(** ** Example environments, for evaluating the program on concrete inputs *)

Definition ascii_decimal (c : N) : option N :=
  if ((48 <=? c) && (c <=? 57))%N then Some (c - 48)%N else None.

Definition blank_reply (status : Z) : Response :=
  mkResponse status (PyStr.lit "body") None NotJson None.

(** An environment with the given webhook, replies and page cards.  Its
    [urljoin] and [strftime] are placeholders. *)
Definition example_env (hook : option str) (on_get on_post : nat -> Exchange)
           (cards : list Card) : Env :=
  mkEnv hook (fun _ => 1700000000.5) (fun k _ => on_get k)
        (fun k _ _ => on_post k) ascii_decimal
        (fun base u => base ++ u) (fun _ => cards)
        (fun _ => PyStr.lit "2023-11-14 22:13:20") (fun _ => None).

Definition empty_world : World := mkWorld [] 0 0 0 [].

Definition example_hook : str := PyStr.lit "https://discord.example/hook".

Definition example_card (n : string) (tags : list str) : Card :=
  mkCard (Some (PyStr.lit "/ski_sell2/" ++ PyStr.lit n))
         (Some (PyStr.lit "skis")) None (Some (PyStr.lit "11,000")) tags
         None None [].

Definition limited_reply (q : Q) : Response :=
  mkResponse 429 (PyStr.lit "{}") None (JsonObject (Some (JNumber q))) None.

Definition example_page : list Card :=
  [example_card "11111" [IN_PROGRESS];
   example_card "22222" [];
   example_card "33333" []].

(** The page is served; every POST fails at connection level. *)
Definition env_down : Env :=
  example_env (Some example_hook) (fun _ => Replies (blank_reply 200))
              (fun _ => Fails ConnectionError) example_page.

(** Every POST is answered by 429 with [retry_after: 2]. *)
Definition env_limited : Env :=
  example_env (Some example_hook) (fun _ => Replies (blank_reply 200))
              (fun _ => Replies (limited_reply 2)) example_page.

(** Every POST is answered by 304. *)
Definition env_redirected : Env :=
  example_env (Some example_hook) (fun _ => Replies (blank_reply 200))
              (fun _ => Replies (blank_reply 304)) example_page.

(** Every GET is answered by [status]. *)
Definition env_status (status : Z) : Env :=
  example_env None (fun _ => Replies (blank_reply status))
              (fun _ => Fails Timeout) [].

Definition example_items : list Item :=
  match parse_cards env_down example_page with
  | Ok items => items
  | Raise _ => []
  end.

Definition flagged_item : Item := nth 0 example_items
  (mkItem [] [] [] None None [] [] [] None [] [] None).

Definition fresh_item : Item := nth 1 example_items
  (mkItem [] [] [] None None [] [] [] None [] [] None).

Definition stamped_item : Item := set_date fresh_item 1700000000.

(** ** Further specification vocabulary *)

(** The span texts of the metadata rows whose text starts with [label], in
    order. *)
Fixpoint labelled (label : str) (rows : list (str * option str)) : list str :=
  match rows with
  | [] => []
  | (txt, sp) :: rows' =>
      if PyStr.startswith txt label
      then or_empty sp :: labelled label rows'
      else labelled label rows'
  end.

(** The identifiers passed to [discord_send], in order of the calls. *)
Fixpoint notified (evs : list Event) : list str :=
  match evs with
  | [] => []
  | Enter_discord_send it :: evs' => id it :: notified evs'
  | _ :: evs' => notified evs'
  end.

(** A call of [discord_send] on an item that carries its [date]. *)
Definition stamped_call (ev : Event) : Prop :=
  match ev with
  | Enter_discord_send it => date it <> None
  | _ => True
  end.

(** [once_each w w']: from [w] to [w'] the table only gained rows, and the
    calls of [discord_send] made on the way were for pairwise distinct
    identifiers, each unknown to the table of [w] and known to the table
    of [w'], each on an item carrying its [date]. *)
Definition once_each (w w' : World) : Prop :=
  exists rows evs,
    seen w' = seen w ++ rows /\
    trace w' = trace w ++ evs /\
    NoDup (notified evs) /\
    Forall stamped_call evs /\
    forall p, In p (notified evs) ->
              known_in (seen w) p = false /\ known_in (seen w') p = true.


(** The error with which an exchange fails an attempt of the notifier for
    good: a request exception raised by the POST, or the status error of
    a reply from 400 to 599 other than 429. *)
Definition hard_error (x : Exchange) : option Exc :=
  match x with
  | Fails e => if is_RequestException e then Some e else None
  | Replies r =>
      if ((400 <=? status_code r) && (status_code r <? 600)
          && negb (status_code r =? 429))%Z
      then Some (HTTPError (status_code r))
      else None
  end.

(** The events of an attempt that fails for good with [e], up to the line
    logged by the handler. *)
Definition failed_attempt (hook t : str) (body : Payload) (k : Z)
           (x : Exchange) (e : Exc) : list Event :=
  [Log INFO (MsgSendAttempt k max_attempts t); HttpPost hook body]
  ++ match x with
     | Replies r => [Log ERROR (MsgDiscordHttp (status_code r) t (snippet300 r))]
     | Fails _ => []
     end
  ++ [Log ERROR (MsgPostFailed k max_attempts t e)].

(** The exception a 429 reply provokes when its body gives no usable
    wait: a JSON document that is not an object, or a [retry_after] that
    [float()] rejects. *)
Definition wait_error (env : Env) (r : Response) : option Exc :=
  match json r with
  | JsonNotObject => Some AttributeError
  | JsonObject (Some JNull) | JsonObject (Some JContainer) => Some TypeError
  | JsonObject (Some (JString s)) =>
      match float_of_str env s with
      | Some _ => None
      | None => Some ValueError
      end
  | _ => None
  end.

(** The events of a successful attempt. *)
Definition delivered_attempt (hook t : str) (body : Payload) (k : Z)
           (r : Response) : list Event :=
  [Log INFO (MsgSendAttempt k max_attempts t);
   HttpPost hook body;
   Log INFO (MsgSentOk (status_code r) t)].

(** ** Further example environments *)

(** The page is served and every POST is answered by 204. *)
Definition env_healthy : Env :=
  example_env (Some example_hook) (fun _ => Replies (blank_reply 200))
              (fun _ => Replies (blank_reply 204)) example_page.

(** The first GET is answered by 503 and the first POST by [first]; every
    later GET is answered by 200 and every later POST by 204. *)
Definition env_flaky (first : Exchange) : Env :=
  example_env (Some example_hook)
              (fun k => if Nat.eqb k 0 then Replies (blank_reply 503)
                        else Replies (blank_reply 200))
              (fun k => if Nat.eqb k 0 then first
                        else Replies (blank_reply 204))
              example_page.

(** No GET gets through. *)
Definition env_unreachable : Env :=
  example_env None (fun _ => Fails ConnectionError) (fun _ => Fails Timeout) [].



(** An item with nothing but an identifier and a date. *)
Definition bare_item : Item :=
  mkItem (PyStr.lit "12345") [] [] None None [] [] [] None [] [] (Some 0%Z).

(** * Properties *)

(** ** Strings and the table *)

Lemma PyStr_eqb_eq (a b : str) : PyStr.eqb a b = true <-> a = b.
Proof.
  revert b; induction a as [|x a IH]; intros [|y b]; simpl; split;
    try congruence; try discriminate.
  - intros H. apply andb_true_iff in H as [Hx Ha].
    apply N.eqb_eq in Hx. apply IH in Ha. congruence.
  - intros H. injection H as -> ->.
    rewrite N.eqb_refl. simpl. now apply IH.
Qed.

Lemma PyStr_eqb_refl (a : str) : PyStr.eqb a a = true.
Proof. now apply PyStr_eqb_eq. Qed.

Lemma known_in_app (xs ys : list SeenEntry) (p : str) :
  known_in (xs ++ ys) p = known_in xs p || known_in ys p.
Proof. unfold known_in. apply existsb_app. Qed.

Lemma rows_for_app (xs ys : list SeenEntry) (p : str) :
  rows_for (xs ++ ys) p = (rows_for xs p + rows_for ys p)%nat.
Proof. unfold rows_for. now rewrite filter_app, length_app. Qed.

Lemma unknown_no_rows (xs : list SeenEntry) (p : str) :
  known_in xs p = false -> rows_for xs p = 0%nat.
Proof.
  unfold known_in, rows_for. induction xs as [|r xs IH]; simpl; [easy|].
  intros H. apply orb_false_iff in H as [Hr Hxs].
  rewrite Hr. now apply IH.
Qed.

Lemma fresh_rows_none (rows0 rows : list SeenEntry) (p : str) :
  known_in rows0 p = true -> Forall (fresh_row rows0) rows ->
  rows_for rows p = 0%nat.
Proof.
  intros Hp Hall. unfold rows_for.
  induction Hall as [|r rows Hr _ IH]; simpl; [easy|].
  destruct (PyStr.eqb (post_id r) p) eqn:E; [|exact IH].
  apply PyStr_eqb_eq in E. unfold fresh_row in Hr. congruence.
Qed.

(** ** What [is_new] does, case by case *)

Lemma is_new_unknown (env : Env) (item : Item) (w : World) :
  known_in (seen w) (id item) = false ->
  clock_fits env (clock_reads w) = true ->
  price_fits item = true ->
  let ts := int_of_float (time_time env (clock_reads w)) in
  is_new env item w =
  (Ok (true, set_date item ts),
   mkWorld (seen w ++ [mkSeen (id item) ts (title item) (raw_price item)])
           (S (clock_reads w)) (gets w) (posts w)
           (trace w ++ [Enter_is_new item; SqlSelect (id item);
                        SqlInsert (mkSeen (id item) ts (title item)
                                          (raw_price item))])).
Proof.
  intros H Hc Hp ts. unfold is_new, bind, emit, select_seen; simpl.
  rewrite H; simpl. unfold bind, read_clock, insert_seen; simpl.
  unfold bindable; simpl. fold (clock_fits env (clock_reads w)).
  fold (price_fits item). rewrite Hc, Hp, H; simpl. unfold ret. subst ts.
  now rewrite <- !app_assoc.
Qed.

Lemma is_new_overflow (env : Env) (item : Item) (w : World) :
  known_in (seen w) (id item) = false ->
  clock_fits env (clock_reads w) && price_fits item = false ->
  is_new env item w =
  (Raise OverflowError,
   mkWorld (seen w) (S (clock_reads w)) (gets w) (posts w)
           (trace w ++ [Enter_is_new item; SqlSelect (id item)])).
Proof.
  intros H Hb. unfold is_new, bind, emit, select_seen; simpl.
  rewrite H; simpl. unfold bind, read_clock, insert_seen; simpl.
  unfold bindable; simpl. fold (clock_fits env (clock_reads w)).
  fold (price_fits item). rewrite Hb; simpl.
  now rewrite <- !app_assoc.
Qed.

Lemma is_new_known (env : Env) (item : Item) (w : World) :
  known_in (seen w) (id item) = true ->
  is_new env item w =
  (Ok (false, item),
   mkWorld (seen w) (clock_reads w) (gets w) (posts w)
           (trace w ++ [Enter_is_new item; SqlSelect (id item)])).
Proof.
  intros H. unfold is_new, bind, emit, select_seen; simpl.
  rewrite H; simpl. unfold ret. now rewrite <- !app_assoc.
Qed.




(** ** Frame rules: what a computation may add to the table and the trace *)

Section Frame.

Variable P : Event -> Prop.
Variable R : SeenEntry -> Prop.
Hypothesis P_io : forall ev, is_io ev = true -> P ev.

Lemma grows_refl (w : World) : grows P R w w.
Proof.
  split; exists []; rewrite app_nil_r; auto.
Qed.

Lemma grows_trans (w1 w2 w3 : World) :
  grows P R w1 w2 -> grows P R w2 w3 -> grows P R w1 w3.
Proof.
  intros [[r1 [S1 F1]] [e1 [T1 G1]]] [[r2 [S2 F2]] [e2 [T2 G2]]].
  split.
  - exists (r1 ++ r2). rewrite S2, S1, app_assoc. split; [easy|].
    apply Forall_app; auto.
  - exists (e1 ++ e2). rewrite T2, T1, app_assoc. split; [easy|].
    apply Forall_app; auto.
Qed.

Lemma keeps_ret {A} (a : A) : keeps P R (ret a).
Proof. intros w. apply grows_refl. Qed.

Lemma keeps_raise {A} (e : Exc) : keeps P R (@raise A e).
Proof. intros w. apply grows_refl. Qed.

Lemma keeps_bind {A B} (c : M A) (k : A -> M B) :
  keeps P R c -> (forall a, keeps P R (k a)) -> keeps P R (bind c k).
Proof.
  intros Hc Hk w. unfold bind. specialize (Hc w).
  destruct (c w) as [[a|e] w']; simpl in *; [|exact Hc].
  eapply grows_trans; [exact Hc|apply Hk].
Qed.

Lemma keeps_try {A} (c : M A) (p : Exc -> bool) (h : Exc -> M A) :
  keeps P R c -> (forall e, keeps P R (h e)) -> keeps P R (try_except c p h).
Proof.
  intros Hc Hh w. unfold try_except. specialize (Hc w).
  destruct (c w) as [[a|e] w']; simpl in *; [exact Hc|].
  destruct (p e); [|exact Hc].
  eapply grows_trans; [exact Hc|apply Hh].
Qed.

Lemma keeps_emit (ev : Event) : P ev -> keeps P R (emit ev).
Proof.
  intros Hev w. split; simpl.
  - exists []. now rewrite app_nil_r.
  - exists [ev]. auto.
Qed.

Lemma keeps_log (lvl : Level) (m : LogMsg) : keeps P R (log lvl m).
Proof. apply keeps_emit, P_io. reflexivity. Qed.

Lemma keeps_sleep (q : Q) : keeps P R (sleep q).
Proof.
  unfold sleep. destruct (Qle_bool 0 q).
  - apply keeps_emit, P_io. reflexivity.
  - apply keeps_raise.
Qed.

Lemma keeps_http_get (env : Env) (u : str) : keeps P R (http_get env u).
Proof.
  intros w. split; simpl.
  - exists []. now rewrite app_nil_r.
  - exists [HttpGet u]. split; [easy|]. constructor; [now apply P_io|easy].
Qed.

Lemma keeps_http_post (env : Env) (u : str) (b : Payload) :
  keeps P R (http_post env u b).
Proof.
  intros w. split; simpl.
  - exists []. now rewrite app_nil_r.
  - exists [HttpPost u b]. split; [easy|]. constructor; [now apply P_io|easy].
Qed.

Ltac frame :=
  repeat first
    [ apply keeps_ret | apply keeps_raise | apply keeps_log
    | apply keeps_sleep | apply keeps_http_get | apply keeps_http_post
    | apply keeps_bind; [|intros ?]
    | apply keeps_try; [|intros ?]
    | match goal with
      | |- keeps _ _ (if ?b then _ else _) => destruct b
      | |- keeps _ _ (match ?x with _ => _ end) => destruct x
      end ].

Lemma keeps_sleep_backoff (n : nat) : keeps P R (sleep_backoff n).
Proof. unfold sleep_backoff. frame. Qed.

Lemma keeps_retry_sleep (r : Response) (n : nat) : keeps P R (retry_sleep r n).
Proof.
  unfold retry_sleep. frame; apply keeps_sleep_backoff.
Qed.

Lemma keeps_urlopen (env : Env) (u : str) (total errors : nat) :
  keeps P R (urlopen env u total errors).
Proof.
  revert errors. induction total as [|t IH]; intros errors; simpl.
  - frame.
  - apply keeps_bind; [apply keeps_http_get|]. intros [r|e].
    + destruct (is_retry (S t) r); [|apply keeps_ret].
      apply keeps_bind; [apply keeps_retry_sleep|]. intros _. apply IH.
    + apply keeps_bind; [apply keeps_sleep_backoff|]. intros _. apply IH.
Qed.

Lemma keeps_resolve_redirects (env : Env) (u : str) (hops : nat) :
  keeps P R (resolve_redirects env u hops).
Proof.
  revert u. induction hops as [|h IH]; intros u; cbn [resolve_redirects];
    (apply keeps_bind; [apply keeps_urlopen|]); intros r;
    destruct (redirect_target r); first [apply keeps_ret | apply keeps_raise | apply IH].
Qed.

Lemma keeps_raise_for_status (r : Response) : keeps P R (raise_for_status r).
Proof. unfold raise_for_status. frame. Qed.

Lemma keeps_fetch_html (env : Env) (u : str) : keeps P R (fetch_html env u).
Proof.
  unfold fetch_html, session_get.
  apply keeps_bind; [apply keeps_log|]. intros _.
  apply keeps_try; [|intros e; frame].
  apply keeps_bind; [apply keeps_resolve_redirects|]. intros r.
  apply keeps_bind; [|intros _; apply keeps_ret].
  destruct (400 <=? status_code r)%Z; [|apply keeps_ret].
  apply keeps_bind; [apply keeps_log|]. intros _.
  apply keeps_raise_for_status.
Qed.

Lemma keeps_parse_list (env : Env) (html : str) : keeps P R (parse_list env html).
Proof.
  unfold parse_list. destruct (parse_cards env (select_cards env html)); frame.
Qed.

Lemma keeps_read_retry_after (env : Env) (r : Response) :
  keeps P R (read_retry_after env r).
Proof. unfold read_retry_after, float_of_json. frame. Qed.

Lemma keeps_send_attempt (env : Env) (hook t : str) (b : Payload) (k : Z) :
  keeps P R (send_attempt env hook t b k).
Proof.
  unfold send_attempt.
  apply keeps_try; [|intros e; frame].
  apply keeps_bind; [apply keeps_log|]. intros _.
  apply keeps_bind; [apply keeps_http_post|]. intros [r|e]; [|frame].
  destruct ((status_code r =? 204)
            || (200 <=? status_code r) && (status_code r <? 300))%Z; [frame|].
  destruct (status_code r =? 429)%Z.
  - apply keeps_bind; [apply keeps_read_retry_after|]. intros q. frame.
  - apply keeps_bind; [apply keeps_log|]. intros _.
    apply keeps_bind; [apply keeps_raise_for_status|]. intros _. frame.
Qed.

Lemma keeps_send_loop (env : Env) (hook t : str) (b : Payload) (ks : list Z) :
  keeps P R (send_loop env hook t b ks).
Proof.
  induction ks as [|k ks IH]; simpl; [apply keeps_ret|].
  apply keeps_bind; [apply keeps_send_attempt|].
  intros [|]; [apply keeps_ret|exact IH].
Qed.

Lemma keeps_discord_send (env : Env) (item : Item) :
  P (Enter_discord_send item) -> keeps P R (discord_send env item).
Proof.
  intros HP. unfold discord_send.
  apply keeps_bind; [now apply keeps_emit|]. intros _.
  destruct (DISCORD_WEBHOOK env) as [hook|]; [|apply keeps_log].
  destruct (negb (PyStr.truthy hook)); [apply keeps_log|].
  destruct (date item); [apply keeps_send_loop|apply keeps_raise].
Qed.

End Frame.

(** ** The runner only adds fresh rows and only notifies fresh, unflagged items *)

Lemma call_ok_io (rows0 : list SeenEntry) (ev : Event) :
  is_io ev = true -> call_ok rows0 ev.
Proof. destruct ev; simpl; intros H; try discriminate; split; exact I. Qed.

Lemma grows_extends P R (rows0 : list SeenEntry) (w w' : World) :
  grows P R w w' ->
  (exists xs, seen w = rows0 ++ xs) -> exists xs, seen w' = rows0 ++ xs.
Proof.
  intros [[rows [S _]] _] [xs Hxs]. exists (xs ++ rows).
  now rewrite S, Hxs, app_assoc.
Qed.

Lemma process_item_grows (env : Env) (rows0 : list SeenEntry) (it : Item)
      (w : World) :
  (exists xs, seen w = rows0 ++ xs) ->
  grows (call_ok rows0) (fresh_row rows0) w (snd (process_item env it w)).
Proof.
  intros [xs Hxs]. unfold process_item.
  destruct (PyStr.mem IN_PROGRESS (status it)) eqn:Flag.
  { apply keeps_log, call_ok_io. }
  unfold bind at 1. destruct (known_in (seen w) (id it)) eqn:K.
  - rewrite (is_new_known env it w K). cbv beta iota.
    eapply grows_trans; [|apply keeps_log, call_ok_io].
    split; simpl.
    + exists []. now rewrite app_nil_r.
    + eexists. split; [reflexivity|].
      repeat constructor; simpl; auto.
  - destruct (clock_fits env (clock_reads w) && price_fits it) eqn:B.
    2:{ rewrite (is_new_overflow env it w K B). split; simpl.
        - exists []. now rewrite app_nil_r.
        - eexists. split; [reflexivity|].
          repeat constructor; simpl; auto. }
    apply andb_true_iff in B as [Bc Bp].
    rewrite (is_new_unknown env it w K Bc Bp). cbv beta iota zeta.
    assert (K0 : known_in rows0 (id it) = false).
    { rewrite Hxs, known_in_app in K. now apply orb_false_iff in K. }
    set (ts := int_of_float (time_time env (clock_reads w))).
    eapply grows_trans.
    2:{ apply keeps_bind; [apply keeps_log, call_ok_io|]. intros _.
        apply keeps_discord_send; [apply call_ok_io|].
        split; simpl; assumption. }
    split; simpl.
    + eexists. split; [reflexivity|]. repeat constructor. exact K0.
    + eexists. split; [reflexivity|].
      repeat constructor; simpl; auto.
Qed.

Lemma run_items_grows (env : Env) (rows0 : list SeenEntry) (items : list Item)
      (w : World) :
  (exists xs, seen w = rows0 ++ xs) ->
  grows (call_ok rows0) (fresh_row rows0) w (snd (run_items env items w)).
Proof.
  revert w. induction items as [|it rest IH]; intros w Hw; simpl.
  - apply grows_refl.
  - unfold bind. pose proof (@process_item_grows env rows0 it w Hw) as G.
    destruct (process_item env it w) as [[[]|e] w1]; simpl in *; [|exact G].
    eapply grows_trans; [exact G|]. apply IH.
    eapply grows_extends; eauto.
Qed.

Lemma run_once_grows (env : Env) (rows0 : list SeenEntry) (w : World) :
  (exists xs, seen w = rows0 ++ xs) ->
  grows (call_ok rows0) (fresh_row rows0) w (snd (run_once env w)).
Proof.
  intros Hw. unfold run_once, try_except.
  assert (G : grows (call_ok rows0) (fresh_row rows0) w
                (snd ((html <- fetch_html env LIST_URL ;;
                       items <- parse_list env html ;;
                       run_items env items) w))).
  { unfold bind at 1.
    pose proof (@keeps_fetch_html (call_ok rows0) (fresh_row rows0)
                                  (@call_ok_io rows0) env LIST_URL w) as G1.
    destruct (fetch_html env LIST_URL w) as [[html|e] w1]; simpl in *;
      [|exact G1].
    unfold bind.
    pose proof (@keeps_parse_list (call_ok rows0) (fresh_row rows0)
                                  (@call_ok_io rows0) env html w1) as G2.
    destruct (parse_list env html w1) as [[items|e] w2]; simpl in *;
      [|eapply grows_trans; eauto].
    eapply grows_trans; [exact G1|]. eapply grows_trans; [exact G2|].
    apply run_items_grows.
    eapply grows_extends; [exact G2|]. eapply grows_extends; eauto. }
  destruct ((html <- fetch_html env LIST_URL ;;
             items <- parse_list env html ;;
             run_items env items) w) as [[a|e] w']; simpl in *; [exact G|].
  eapply grows_trans; [exact G|]. apply keeps_log, call_ok_io.
Qed.

Lemma run_cycles_grows (envs : list Env) (rows0 : list SeenEntry) (w : World) :
  (exists xs, seen w = rows0 ++ xs) ->
  grows (call_ok rows0) (fresh_row rows0) w (snd (run_cycles envs w)).
Proof.
  revert w. induction envs as [|env rest IH]; intros w Hw; simpl.
  - apply grows_refl.
  - unfold bind. pose proof (@run_once_grows env rows0 w Hw) as G.
    destruct (run_once env w) as [[[]|e] w1]; simpl in *; [|exact G].
    eapply grows_trans; [exact G|]. apply IH.
    eapply grows_extends; eauto.
Qed.

(** C2. In every cycle, whatever the page, the store and the network do, no
    item whose status tags contain the in-progress marker is passed to
    [is_new] or to [discord_send]; the whole effect of such an item is one
    debug line, emitted before any access to the store. *)
Theorem in_progress_items_skipped (envs : list Env) (w : World) :
  (exists evs,
      trace (snd (run_cycles envs w)) = trace w ++ evs /\
      forall it, PyStr.mem IN_PROGRESS (status it) = true ->
                 ~ In (Enter_is_new it) evs /\
                 ~ In (Enter_discord_send it) evs) /\
  (forall env it w0,
      PyStr.mem IN_PROGRESS (status it) = true ->
      process_item env it w0 = log DEBUG (MsgFiltered (id it)) w0).
Proof.
  split.
  - destruct (@run_cycles_grows envs [] w) as [_ [evs [T F]]].
    { now exists (seen w). }
    exists evs. split; [exact T|]. intros it Hflag.
    rewrite Forall_forall in F.
    split; intros Hin; apply F in Hin; destruct Hin as [U _]; simpl in U;
      congruence.
  - intros env it w0 Hflag. unfold process_item. now rewrite Hflag.
Qed.

(** ** A failed notification and the store *)

Lemma is_new_true_inv (env : Env) (it it1 : Item) (w w1 : World) :
  is_new env it w = (Ok (true, it1), w1) ->
  known_in (seen w) (id it) = false /\
  id it1 = id it /\
  seen w1 = seen w ++ [mkSeen (id it)
                              (int_of_float (time_time env (clock_reads w)))
                              (title it) (raw_price it)].
Proof.
  intros H. destruct (known_in (seen w) (id it)) eqn:K.
  - rewrite (is_new_known env it w K) in H. discriminate.
  - destruct (clock_fits env (clock_reads w) && price_fits it) eqn:B.
    2:{ rewrite (is_new_overflow env it w K B) in H. discriminate. }
    apply andb_true_iff in B as [Bc Bp].
    rewrite (is_new_unknown env it w K Bc Bp) in H. cbv zeta in H.
    injection H as <- <-. auto.
Qed.

Lemma Forall_False_nil {A} (l : list A) : Forall (fun _ => False) l -> l = [].
Proof. destruct l; [easy|]. intros H. inversion H. contradiction. Qed.

Lemma discord_send_store (env : Env) (item : Item) (w : World) :
  seen (snd (discord_send env item w)) = seen w.
Proof.
  destruct (@keeps_discord_send (fun _ => True) (fun _ => False)
              (fun _ _ => I) env item I w) as [[rows [S F]] _].
  apply Forall_False_nil in F. subst rows. now rewrite app_nil_r in S.
Qed.

Lemma fetch_html_store (env : Env) (u : str) (w : World) :
  seen (snd (fetch_html env u w)) = seen w.
Proof.
  destruct (@keeps_fetch_html (fun _ => True) (fun _ => False)
              (fun _ _ => I) env u w) as [[rows [S F]] _].
  apply Forall_False_nil in F. subst rows. now rewrite app_nil_r in S.
Qed.

(** C5. When [is_new] has recorded an item as new and the call of
    [discord_send] that follows raises, the row stays: the table is the one
    [is_new] left, it holds exactly one row for the item's id, and through
    any number of later cycles, whatever they meet, that table is only
    extended, the id keeps exactly one row, every dedup-check of the id
    answers [False], and no item with that id is passed to [discord_send]. *)
Theorem failed_notify_keeps_entry (env : Env) (it it1 : Item)
        (w w1 w2 : World) (e : Exc) :
  is_new env it w = (Ok (true, it1), w1) ->
  discord_send env it1 (snd (log INFO (MsgNew (title it1) (url it1)) w1))
  = (Raise e, w2) ->
  seen w2 = seen w1 /\
  rows_for (seen w2) (id it) = 1%nat /\
  forall (w2' : World) (envs : list Env),
    seen w2' = seen w2 ->
    let w3 := snd (run_cycles envs w2') in
    (exists rows, seen w3 = seen w2 ++ rows) /\
    rows_for (seen w3) (id it) = 1%nat /\
    (forall env' it',
        id it' = id it -> fst (is_new env' it' w3) = Ok (false, it')) /\
    (exists evs,
        trace w3 = trace w2' ++ evs /\
        forall it', id it' = id it -> ~ In (Enter_discord_send it') evs).
Proof.
  intros Hnew Hsend.
  destruct (is_new_true_inv _ _ _ Hnew) as [K [Hid S1]].
  assert (S2 : seen w2 = seen w1).
  { pose proof (discord_send_store env it1
                  (snd (log INFO (MsgNew (title it1) (url it1)) w1))) as E.
    rewrite Hsend in E. exact E. }
  assert (C2 : rows_for (seen w2) (id it) = 1%nat).
  { rewrite S2, S1, rows_for_app, (unknown_no_rows _ _ K).
    unfold rows_for; simpl. now rewrite PyStr_eqb_refl. }
  assert (K2 : known_in (seen w2) (id it) = true).
  { rewrite S2, S1, known_in_app. simpl.
    now rewrite PyStr_eqb_refl, orb_true_r. }
  split; [exact S2|]. split; [exact C2|].
  intros w2' envs Hsame w3.
  destruct (@run_cycles_grows envs (seen w2) w2') as [[rows [S3 F3]] [evs [T3 G3]]].
  { exists []. now rewrite app_nil_r. }
  fold w3 in S3, T3. rewrite Hsame in S3.
  split; [now exists rows|].
  split.
  { rewrite S3, rows_for_app, C2, (fresh_rows_none _ K2 F3). reflexivity. }
  split.
  - intros env' it' Hid'. rewrite is_new_known; [reflexivity|].
    rewrite S3, known_in_app, Hid', K2. reflexivity.
  - exists evs. split; [exact T3|]. intros it' Hid' Hin.
    rewrite Forall_forall in G3. apply G3 in Hin. destruct Hin as [_ Hf].
    simpl in Hf. congruence.
Qed.

(** ** A failed notification and the rest of the cycle *)

Lemma run_items_app (env : Env) (pre rest : list Item) (w : World) :
  run_items env (pre ++ rest) w =
  match run_items env pre w with
  | (Ok _, w') => run_items env rest w'
  | (Raise e, w') => (Raise e, w')
  end.
Proof.
  revert w. induction pre as [|it pre IH]; intros w; simpl; [reflexivity|].
  unfold bind. destruct (process_item env it w) as [[[]|e] w']; [|reflexivity].
  apply IH.
Qed.

Lemma discord_send_io (env : Env) (item : Item) (w : World) :
  exists evs,
    trace (snd (discord_send env item w))
    = trace w ++ Enter_discord_send item :: evs /\
    Forall (fun ev => is_io ev = true) evs.
Proof.
  unfold discord_send. unfold bind at 1, emit.
  match goal with
  | |- context [snd (?c ?w0)] =>
      assert (K : keeps (fun ev => is_io ev = true) (fun _ => True) c);
      [|destruct (K w0) as [_ [evs [T F]]]]
  end.
  { destruct (DISCORD_WEBHOOK env) as [hook|]; [|now apply keeps_log].
    destruct (negb (PyStr.truthy hook)); [now apply keeps_log|].
    destruct (date item); [now apply keeps_send_loop|now apply keeps_raise]. }
  exists evs. split; [|exact F].
  rewrite T. simpl. now rewrite <- app_assoc.
Qed.

(** C9. When, in a cycle, the items before position [i] are processed
    normally and [discord_send] raises for the item at position [i], the
    single try/except of [run_once] catches the exception: the cycle ends
    there with one error line.  The table is the one the dedup-check of
    item [i] left, everything the cycle did after entering that
    [discord_send] is network and logger traffic (no call of [is_new] or
    [discord_send], no INSERT), and an item after position [i] that the
    table did not hold is still not in it when the cycle returns. *)
Theorem notify_failure_aborts_cycle (env : Env) (html : str)
        (pre post : list Item) (it it1 : Item) (ws wf wa w1 w2 : World)
        (e : Exc) :
  fetch_html env LIST_URL ws = (Ok html, wf) ->
  parse_cards env (select_cards env html) = Ok (pre ++ it :: post) ->
  run_items env pre (snd (parse_list env html wf)) = (Ok tt, wa) ->
  PyStr.mem IN_PROGRESS (status it) = false ->
  is_new env it wa = (Ok (true, it1), w1) ->
  discord_send env it1 (snd (log INFO (MsgNew (title it1) (url it1)) w1))
  = (Raise e, w2) ->
  run_once env ws = (Ok tt, snd (log ERROR (MsgRunOnceFailed e) w2)) /\
  seen (snd (run_once env ws)) = seen w1 /\
  (exists evs,
      trace (snd (run_once env ws))
      = trace w1 ++ Log INFO (MsgNew (title it1) (url it1))
                 :: Enter_discord_send it1 :: evs /\
      Forall (fun ev => is_io ev = true) evs) /\
  (forall it', In it' post ->
               known_in (seen w1) (id it') = false ->
               known_in (seen (snd (run_once env ws))) (id it') = false).
Proof.
  intros Hfetch Hparse Hpre Hflag Hnew Hsend.
  assert (Hrun : run_once env ws
                 = (Ok tt, snd (log ERROR (MsgRunOnceFailed e) w2))).
  { unfold run_once, try_except. unfold bind at 1. rewrite Hfetch.
    unfold bind at 1. unfold parse_list in *. rewrite Hparse in *.
    unfold bind at 1. unfold log at 1, emit at 1. cbv beta iota.
    unfold ret at 1. simpl in Hpre.
    rewrite run_items_app, Hpre. simpl run_items. unfold bind at 1.
    unfold process_item. rewrite Hflag. unfold bind at 1. rewrite Hnew.
    cbv beta iota. unfold bind at 1.
    destruct (log INFO (MsgNew (title it1) (url it1)) w1) as [[[]|e0] wl] eqn:L;
      [|discriminate L].
    simpl in Hsend. rewrite Hsend. reflexivity. }
  assert (Hseen : seen (snd (run_once env ws)) = seen w1).
  { rewrite Hrun. simpl.
    pose proof (discord_send_store env it1
                  (snd (log INFO (MsgNew (title it1) (url it1)) w1))) as E.
    rewrite Hsend in E. exact E. }
  split; [exact Hrun|]. split; [exact Hseen|]. split.
  - destruct (discord_send_io env it1
                (snd (log INFO (MsgNew (title it1) (url it1)) w1)))
      as [evs [T F]].
    rewrite Hsend in T. simpl in T.
    exists (evs ++ [Log ERROR (MsgRunOnceFailed e)]). split.
    + rewrite Hrun. simpl. rewrite T. rewrite <- !app_assoc. reflexivity.
    + apply Forall_app. split; [exact F|]. now constructor.
  - intros it' _ Hk. now rewrite Hseen.
Qed.

(** ** Notifier: attempts that neither succeed nor raise *)

Lemma send_attempt_ignored (env : Env) (hook t : str) (body : Payload)
      (k : Z) (r : Response) (w : World) :
  post_exchange env (posts w) hook body = Replies r ->
  (300 <= status_code r < 400)%Z ->
  send_attempt env hook t body k w
  = (Ok NextAttempt, after_post w (ignored_attempt hook t body k r)).
Proof.
  intros Hx Hs.
  assert (E1 : ((status_code r =? 204)
                || (200 <=? status_code r) && (status_code r <? 300))%Z = false).
  { apply orb_false_iff. split; [apply Z.eqb_neq; lia|].
    apply andb_false_iff. right. apply Z.ltb_ge. lia. }
  assert (E2 : (status_code r =? 429)%Z = false) by (apply Z.eqb_neq; lia).
  assert (E3 : ((400 <=? status_code r) && (status_code r <? 600))%Z = false).
  { apply andb_false_iff. left. apply Z.leb_gt. lia. }
  unfold send_attempt, try_except, bind, log, emit, http_post. simpl.
  rewrite Hx, E1, E2. unfold raise_for_status. rewrite E3.
  unfold ret, after_post, ignored_attempt, snippet300. simpl.
  now rewrite <- !app_assoc.
Qed.

Lemma send_attempt_limited (env : Env) (hook t : str) (body : Payload)
      (k : Z) (r : Response) (q : Q) (w : World) :
  post_exchange env (posts w) hook body = Replies r ->
  status_code r = 429%Z ->
  json r = JsonObject (Some (JNumber q)) ->
  Qle_bool 0 (q + (1 # 4)) = true ->
  send_attempt env hook t body k w
  = (Ok NextAttempt, after_post w (limited_attempt hook t body k q)).
Proof.
  intros Hx Hs Hj Hq.
  unfold send_attempt, try_except, bind, log, emit, http_post. simpl.
  rewrite Hx, Hs. simpl. unfold read_retry_after. rewrite Hj. simpl.
  unfold ret, sleep. rewrite Hq. unfold emit. simpl.
  unfold after_post, limited_attempt. now rewrite <- !app_assoc.
Qed.

Lemma discord_send_enabled (env : Env) (item : Item) (hook : str) (ts : Z)
      (w : World) :
  DISCORD_WEBHOOK env = Some hook ->
  PyStr.truthy hook = true ->
  date item = Some ts ->
  discord_send env item w
  = send_loop env hook (PyStr.strip (title item)) (build_payload env item ts)
              attempt_range
              (mkWorld (seen w) (clock_reads w) (gets w) (posts w)
                       (trace w ++ [Enter_discord_send item])).
Proof.
  intros Hh Ht Hd. unfold discord_send, bind, emit.
  now rewrite Hh, Ht, Hd.
Qed.

(** C10. When all three attempts of a call of [discord_send] are answered
    by a 3xx status, no attempt succeeds and none raises
    ([raise_for_status] does nothing below 400): each attempt logs the
    error line, and after the third the call returns normally, with the
    value a successful call returns, having posted three times and slept
    never. *)
Theorem discord_send_3xx_returns (env : Env) (item : Item) (hook : str)
        (ts : Z) (r1 r2 r3 : Response) (w : World) :
  DISCORD_WEBHOOK env = Some hook ->
  PyStr.truthy hook = true ->
  date item = Some ts ->
  let t := PyStr.strip (title item) in
  let body := build_payload env item ts in
  post_exchange env (posts w) hook body = Replies r1 ->
  post_exchange env (1 + posts w) hook body = Replies r2 ->
  post_exchange env (2 + posts w) hook body = Replies r3 ->
  (300 <= status_code r1 < 400)%Z ->
  (300 <= status_code r2 < 400)%Z ->
  (300 <= status_code r3 < 400)%Z ->
  discord_send env item w
  = (Ok tt,
     mkWorld (seen w) (clock_reads w) (gets w) (3 + posts w)
             (trace w ++ Enter_discord_send item
                      :: ignored_attempt hook t body 1 r1
                      ++ ignored_attempt hook t body 2 r2
                      ++ ignored_attempt hook t body 3 r3)).
Proof.
  intros Hh Ht Hd t body X1 X2 X3 S1 S2 S3.
  rewrite (@discord_send_enabled env item hook ts w Hh Ht Hd).
  fold t body. unfold attempt_range, send_loop.
  unfold bind at 1. erewrite send_attempt_ignored; [|exact X1|exact S1].
  unfold bind at 1. erewrite send_attempt_ignored; [|exact X2|exact S2].
  unfold bind at 1. erewrite send_attempt_ignored; [|exact X3|exact S3].
  unfold ret, after_post. simpl. now rewrite <- !app_assoc.
Qed.

(** C3, on the code: when all three attempts of a call of [discord_send]
    are answered by 429, each with a numeric [retry_after], the call sleeps
    [retry_after + 0.25] after each of them, the third included, and then
    returns normally: nothing is raised to the caller. *)
Theorem discord_send_429_exhausted_returns (env : Env) (item : Item)
        (hook : str) (ts : Z) (r1 r2 r3 : Response) (q1 q2 q3 : Q)
        (w : World) :
  DISCORD_WEBHOOK env = Some hook ->
  PyStr.truthy hook = true ->
  date item = Some ts ->
  let t := PyStr.strip (title item) in
  let body := build_payload env item ts in
  post_exchange env (posts w) hook body = Replies r1 ->
  post_exchange env (1 + posts w) hook body = Replies r2 ->
  post_exchange env (2 + posts w) hook body = Replies r3 ->
  status_code r1 = 429%Z /\ json r1 = JsonObject (Some (JNumber q1)) ->
  status_code r2 = 429%Z /\ json r2 = JsonObject (Some (JNumber q2)) ->
  status_code r3 = 429%Z /\ json r3 = JsonObject (Some (JNumber q3)) ->
  Qle_bool 0 (q1 + (1 # 4)) = true ->
  Qle_bool 0 (q2 + (1 # 4)) = true ->
  Qle_bool 0 (q3 + (1 # 4)) = true ->
  discord_send env item w
  = (Ok tt,
     mkWorld (seen w) (clock_reads w) (gets w) (3 + posts w)
             (trace w ++ Enter_discord_send item
                      :: limited_attempt hook t body 1 q1
                      ++ limited_attempt hook t body 2 q2
                      ++ limited_attempt hook t body 3 q3)).
Proof.
  intros Hh Ht Hd t body X1 X2 X3 [S1 J1] [S2 J2] [S3 J3] Q1 Q2 Q3.
  rewrite (@discord_send_enabled env item hook ts w Hh Ht Hd).
  fold t body. unfold attempt_range, send_loop.
  unfold bind at 1. erewrite send_attempt_limited; [|exact X1|exact S1|exact J1|exact Q1].
  unfold bind at 1. erewrite send_attempt_limited; [|exact X2|exact S2|exact J2|exact Q2].
  unfold bind at 1. erewrite send_attempt_limited; [|exact X3|exact S3|exact J3|exact Q3].
  unfold ret, after_post. simpl. now rewrite <- !app_assoc.
Qed.

(** ** Fetcher: the final status *)

Lemma replace1_length (a b : N) (s : str) :
  List.length (PyStr.replace1 a b s) = List.length s.
Proof. unfold PyStr.replace1. apply length_map. Qed.

Lemma fetch_html_unfold (env : Env) (u : str) (w w1 : World) (r : Response) :
  session_get env u (snd (log INFO (MsgFetching u) w)) = (Ok r, w1) ->
  fetch_html env u w
  = match
      (if (400 <=? status_code r)%Z
       then log WARNING (MsgHttpStatus (status_code r) u (snippet500 r)) ;;
            raise_for_status r
       else ret tt) w1
    with
    | (Ok _, w') => (Ok (text r), w')
    | (Raise e, w') =>
        if is_RequestException e
        then (log ERROR (MsgFetchFailed u e) ;; raise e) w'
        else (Raise e, w')
    end.
Proof.
  intros Hget.
  unfold log at 1, emit at 1 in Hget. simpl snd in Hget.
  unfold fetch_html. unfold bind at 1. unfold log at 1, emit at 1.
  cbv beta iota. unfold try_except. unfold bind at 1. rewrite Hget.
  unfold bind at 1. fold (snippet500 r).
  destruct ((if (400 <=? status_code r)%Z
             then log WARNING (MsgHttpStatus (status_code r) u
                                             (snippet500 r)) ;;
                  raise_for_status r
             else ret tt) w1) as [[[]|e] w']; reflexivity.
Qed.

Lemma fetch_html_error_status (env : Env) (u : str) (w w1 : World)
      (r : Response) :
  session_get env u (snd (log INFO (MsgFetching u) w)) = (Ok r, w1) ->
  (400 <= status_code r < 600)%Z ->
  fetch_html env u w
  = (Raise (HTTPError (status_code r)),
     mkWorld (seen w1) (clock_reads w1) (gets w1) (posts w1)
             (trace w1 ++
              [Log WARNING (MsgHttpStatus (status_code r) u (snippet500 r));
               Log ERROR (MsgFetchFailed u (HTTPError (status_code r)))])).
Proof.
  intros Hget Hs. rewrite (fetch_html_unfold _ _ _ Hget).
  replace (400 <=? status_code r)%Z with true
    by (symmetry; apply Z.leb_le; lia).
  unfold raise_for_status.
  replace ((400 <=? status_code r) && (status_code r <? 600))%Z with true.
  2:{ symmetry. apply andb_true_iff. split;
      [apply Z.leb_le|apply Z.ltb_lt]; lia. }
  unfold bind, log, emit, raise. simpl. now rewrite <- !app_assoc.
Qed.

(** C4, as the code has it. Whatever final response the session hands to
    [fetch_html]: below 400 the call returns the body text; from 400 to 599
    it logs a warning that carries the status code and the first 500
    characters of the body at most (newlines turned into spaces), then
    fails with the status error of [raise_for_status], which carries the
    status code. *)
Theorem fetch_html_by_status (env : Env) (u : str) (w w1 : World)
        (r : Response) :
  session_get env u (snd (log INFO (MsgFetching u) w)) = (Ok r, w1) ->
  ((status_code r < 400)%Z -> fetch_html env u w = (Ok (text r), w1)) /\
  ((400 <= status_code r < 600)%Z ->
   (List.length (snippet500 r) <= 500)%nat /\
   fetch_html env u w
   = (Raise (HTTPError (status_code r)),
      mkWorld (seen w1) (clock_reads w1) (gets w1) (posts w1)
              (trace w1 ++
               [Log WARNING (MsgHttpStatus (status_code r) u (snippet500 r));
                Log ERROR (MsgFetchFailed u (HTTPError (status_code r)))]))).
Proof.
  intros Hget. split.
  - intros Hs. rewrite (fetch_html_unfold _ _ _ Hget).
    replace (400 <=? status_code r)%Z with false
      by (symmetry; apply Z.leb_gt; lia).
    reflexivity.
  - intros Hs. split.
    + unfold snippet500, PyStr.slice_to.
      rewrite replace1_length, length_firstn. apply Nat.le_min_l.
    + now apply fetch_html_error_status.
Qed.

(** What C4 says of every non-2xx final response fails at 304. *)
Lemma fetch_html_returns_on_304 :
  ~ (forall (env : Env) (u : str) (w w1 : World) (r : Response),
        session_get env u (snd (log INFO (MsgFetching u) w)) = (Ok r, w1) ->
        ~ (200 <= status_code r < 300)%Z ->
        exists w2, fetch_html env u w = (Raise (HTTPError (status_code r)), w2)).
Proof.
  intros H.
  destruct (H (example_env None (fun _ => Replies (blank_reply 304))
                           (fun _ => Fails Timeout) [])
              LIST_URL empty_world _ (blank_reply 304) eq_refl) as [w2 E].
  - simpl. lia.
  - vm_compute in E. discriminate E.
Qed.

(** ** Fetcher: the retry policy of the session *)



















(** A response that is no redirect ends the session's redirect loop. *)
Lemma resolve_redirects_final (env : Env) (u : str) (hops : nat)
      (w w1 : World) (r : Response) :
  urlopen env u retry_total 0 w = (Ok r, w1) ->
  redirect_target r = None ->
  resolve_redirects env u hops w = (Ok r, w1).
Proof.
  intros E Hr. destruct hops; cbn [resolve_redirects]; unfold bind at 1;
    rewrite E, Hr; reflexivity.
Qed.




Example fetch_html_503_sleeps :
  sleeps (trace (snd (fetch_html (env_status 503) LIST_URL empty_world)))
  = [14 # 10; 28 # 10].
Proof. reflexivity. Qed.


(** ** Extractor: the numeric price *)

Lemma only_digits_values (env : Env) (s : str) :
  List.length (only_digits env s) = List.length (digit_values env s).
Proof.
  unfold only_digits, is_digit. induction s as [|c s IH]; simpl; [reflexivity|].
  destruct (to_decimal env c); simpl; congruence.
Qed.

Lemma fold_positional (env : Env) (s : str) (acc : Z) :
  fold_left
    (fun a c => 10 * a + match to_decimal env c with
                         | Some d => Z.of_N d
                         | None => 0
                         end)%Z
    (only_digits env s) acc
  = (acc * 10 ^ Z.of_nat (List.length (digit_values env s))
     + positional (digit_values env s))%Z.
Proof.
  revert acc. unfold only_digits, is_digit.
  induction s as [|c s IH]; intros acc.
  - simpl. lia.
  - cbn [filter digit_values]. destruct (to_decimal env c) as [d|] eqn:D.
    + cbn [fold_left positional List.length]. rewrite D, IH.
      rewrite Nat2Z.inj_succ, Z.pow_succ_r by lia. ring.
    + apply IH.
Qed.

Lemma horner_positional (env : Env) (s : str) :
  horner env (only_digits env s) = positional (digit_values env s).
Proof. unfold horner. rewrite fold_positional. lia. Qed.

Lemma int_of_digits_short (env : Env) (s : str) :
  (N.of_nat (List.length (only_digits env s)) <= int_max_str_digits)%N ->
  int_of_digits env (only_digits env s) = Ok (positional (digit_values env s)).
Proof.
  intros Hlen. unfold int_of_digits.
  replace (int_max_str_digits <? _)%N with false
    by (symmetry; apply N.ltb_ge; exact Hlen).
  now rewrite horner_positional.
Qed.

Lemma int_of_digits_long (env : Env) (s : str) :
  (int_max_str_digits < N.of_nat (List.length (only_digits env s)))%N ->
  int_of_digits env (only_digits env s) = Raise ValueError.
Proof.
  intros Hlen. unfold int_of_digits.
  now replace (int_max_str_digits <? _)%N with true
    by (symmetry; apply N.ltb_lt; exact Hlen).
Qed.

Lemma positional_nonneg (ds : list N) : (0 <= positional ds)%Z.
Proof.
  induction ds as [|d ds IH]; cbn [positional]; [lia|].
  assert (0 <= 10 ^ Z.of_nat (List.length ds))%Z by (apply Z.pow_nonneg; lia).
  nia.
Qed.

Lemma only_digits_truthy (env : Env) (s : str) :
  PyStr.truthy (only_digits env s) = existsb (is_digit env) s.
Proof.
  unfold only_digits. induction s as [|c s IH]; simpl; [reflexivity|].
  destruct (is_digit env c); simpl; [reflexivity|exact IH].
Qed.

Lemma parse_price_raises (env : Env) (el : option str) (e : Exc) :
  parse_price env el = Raise e -> e = ValueError.
Proof.
  destruct el as [s|]; cbn [parse_price]; [|discriminate].
  destruct (PyStr.truthy (only_digits env s)); [|discriminate].
  unfold int_of_digits.
  destruct (int_max_str_digits <? _)%N; [|discriminate]. congruence.
Qed.

Lemma parse_card_raises (env : Env) (a : Card) (e : Exc) :
  parse_card env a = Raise e -> e = ValueError.
Proof.
  unfold parse_card.
  destruct (POST_ID_RE_search env (PyStr.strip (or_empty (c_href a))));
    [|discriminate].
  destruct (parse_price env (c_price a)) as [rp|e0] eqn:P; [discriminate|].
  intros H. injection H as <-. exact (parse_price_raises _ _ P).
Qed.

(** One card that raises loses the page. *)
Lemma parse_cards_lost (env : Env) (cards : list Card) (a : Card) (e : Exc) :
  In a cards -> parse_card env a = Raise e ->
  parse_cards env cards = Raise ValueError.
Proof.
  intros Hin Ha. induction cards as [|b cards IH]; [contradiction|].
  cbn [parse_cards]. destruct Hin as [->|Hin].
  - rewrite Ha. now rewrite (parse_card_raises _ _ Ha).
  - destruct (parse_card env b) as [o|e0] eqn:B.
    + now rewrite (IH Hin).
    + now rewrite (parse_card_raises _ _ B).
Qed.

(** C7, as the code has it. For every price text [s] of a card with at
    most 4300 digit characters: the extraction yields a result and the
    display price is [s]; when [s] contains a digit character the numeric
    price is the integer that the digit characters of [s] denote, read in
    order, which is not negative; when it contains none the numeric price
    is absent; and this is what the item emitted for the card carries.
    With more than 4300 digit characters [int] raises [ValueError], and
    a page on which a card with an identifier has such a price yields no
    item at all. *)
Theorem price_digits_value (env : Env) (s : str) :
  ((N.of_nat (List.length (only_digits env s)) <= int_max_str_digits)%N ->
   (exists rp, parse_price env (Some s) = Ok (rp, Some s)) /\
   (existsb (is_digit env) s = true ->
    parse_price env (Some s)
    = Ok (Some (positional (digit_values env s)), Some s) /\
    (0 <= positional (digit_values env s))%Z) /\
   (existsb (is_digit env) s = false ->
    parse_price env (Some s) = Ok (None, Some s)) /\
   (forall (a : Card) (it : Item),
       c_price a = Some s -> parse_card env a = Ok (Some it) ->
       parse_price env (Some s) = Ok (raw_price it, price it) /\
       price it = Some s)) /\
  ((int_max_str_digits < N.of_nat (List.length (only_digits env s)))%N ->
   parse_price env (Some s) = Raise ValueError /\
   (forall (cards : list Card) (a : Card) (pid : str),
       In a cards -> c_price a = Some s ->
       POST_ID_RE_search env (PyStr.strip (or_empty (c_href a))) = Some pid ->
       parse_cards env cards = Raise ValueError)).
Proof.
  split.
  - intros Hlen.
    assert (Hp : parse_price env (Some s)
                 = Ok (if existsb (is_digit env) s
                       then Some (positional (digit_values env s))
                       else None, Some s)).
    { cbn [parse_price]. rewrite only_digits_truthy.
      destruct (existsb (is_digit env) s); [|reflexivity].
      now rewrite int_of_digits_short. }
    split; [eexists; exact Hp|]. split; [|split].
    + intros Hd. rewrite Hp, Hd. split; [reflexivity|].
      apply positional_nonneg.
    + intros Hd. now rewrite Hp, Hd.
    + intros a it Hc Hi. unfold parse_card in Hi.
      destruct (POST_ID_RE_search env (PyStr.strip (or_empty (c_href a))));
        [|discriminate].
      rewrite Hc, Hp in Hi. injection Hi as <-. cbn [raw_price price fst snd].
      split; [exact Hp|reflexivity].
  - intros Hlen.
    assert (Hp : parse_price env (Some s) = Raise ValueError).
    { cbn [parse_price].
      assert (Ht : PyStr.truthy (only_digits env s) = true).
      { destruct (only_digits env s); [|reflexivity].
        simpl in Hlen. unfold int_max_str_digits in Hlen. lia. }
      now rewrite Ht, int_of_digits_long. }
    split; [exact Hp|].
    intros cards a pid Hin Hc Hs.
    apply (@parse_cards_lost env cards a ValueError Hin).
    unfold parse_card. now rewrite Hs, Hc, Hp.
Qed.

(** What C7 says of every price string fails on one with more digit
    characters than [int] converts: the extraction raises. *)
Lemma parse_price_rejects_long_digits :
  ~ (forall (env : Env) (s : str),
        existsb (is_digit env) s = true ->
        parse_price env (Some s)
        = Ok (Some (positional (digit_values env s)), Some s)).
Proof.
  intros H.
  assert (D : existsb (is_digit env_down) (repeat 49%N 4301) = true)
    by reflexivity.
  assert (E : parse_price env_down (Some (repeat 49%N 4301)) = Raise ValueError)
    by (vm_compute; reflexivity).
  pose proof (H env_down (repeat 49%N 4301) D) as C.
  pose proof (eq_trans (eq_sym E) C) as F. discriminate F.
Qed.

(** ** Extractor: the thumbnail *)

Lemma lstrip_snoc (l : str) (c : N) :
  PyStr.isspace c = false -> PyStr.lstrip (l ++ [c]) = PyStr.lstrip l ++ [c].
Proof.
  intros Hc. induction l as [|x l IH]; simpl.
  - now rewrite Hc.
  - destruct (PyStr.isspace x); [exact IH|reflexivity].
Qed.

Lemma strip_slashes (rest : str) :
  PyStr.strip (PyStr.lit "//" ++ rest) = PyStr.lit "//" ++ PyStr.rstrip rest.
Proof.
  unfold PyStr.strip. change (PyStr.lit "//") with [47; 47]%N.
  change (PyStr.lstrip ([47; 47]%N ++ rest)) with ([47; 47]%N ++ rest).
  unfold PyStr.rstrip. simpl rev.
  rewrite !lstrip_snoc by reflexivity.
  rewrite <- app_assoc, rev_app_distr. reflexivity.
Qed.

(** C8. [_norm_img] turns a source [//...] into [https://...] (what follows
    the two slashes is kept, less trailing white space, so [//x/y.jpg]
    becomes [https://x/y.jpg]); any other non-empty source into its
    [urljoin] against [BASE], which is [https://www.drspark.net]; and an
    absent source into an absent thumbnail. *)
Theorem norm_img_cases (env : Env) :
  (forall rest,
      _norm_img env (Some (PyStr.lit "//" ++ rest))
      = Some (PyStr.lit "https://" ++ PyStr.rstrip rest)) /\
  _norm_img env (Some (PyStr.lit "//x/y.jpg")) = Some (PyStr.lit "https://x/y.jpg") /\
  (forall src,
      PyStr.truthy src = true ->
      PyStr.startswith (PyStr.strip src) (PyStr.lit "//") = false ->
      _norm_img env (Some src) = Some (urljoin env BASE (PyStr.strip src))) /\
  _norm_img env None = None /\
  BASE = PyStr.lit "https://www.drspark.net".
Proof.
  split; [|split; [reflexivity|split; [|split; reflexivity]]].
  - intros rest. unfold _norm_img.
    change (PyStr.truthy (PyStr.lit "//" ++ rest)) with true.
    cbv beta iota zeta. simpl negb. cbv iota.
    rewrite strip_slashes.
    change (PyStr.lit "//" ++ PyStr.rstrip rest)
      with (47 :: 47 :: PyStr.rstrip rest)%N.
    reflexivity.
  - intros src Ht Hs. unfold _norm_img. now rewrite Ht, Hs.
Qed.

(** ** The theorems at concrete inputs *)

Lemma in_progress_items_skipped_witness :
  ~ In (Enter_is_new flagged_item)
       (trace (snd (run_cycles [env_down; env_down] empty_world))) /\
  process_item env_down flagged_item empty_world
  = log DEBUG (MsgFiltered (id flagged_item)) empty_world.
Proof.
  destruct (in_progress_items_skipped [env_down; env_down] empty_world)
    as [[evs [T F]] G].
  split.
  - rewrite T. simpl. apply F. reflexivity.
  - apply G. reflexivity.
Defined.

Lemma discord_send_429_exhausted_returns_witness :
  fst (discord_send env_limited stamped_item empty_world) = Ok tt /\
  sleeps (trace (snd (discord_send env_limited stamped_item empty_world)))
  = [2 + (1 # 4); 2 + (1 # 4); 2 + (1 # 4)].
Proof.
  rewrite (@discord_send_429_exhausted_returns
             env_limited stamped_item example_hook 1700000000
             (limited_reply 2) (limited_reply 2) (limited_reply 2) 2 2 2
             empty_world);
    [split; reflexivity | try reflexivity; split; reflexivity ..].
Defined.

Lemma discord_send_3xx_returns_witness :
  fst (discord_send env_redirected stamped_item empty_world) = Ok tt /\
  posts (snd (discord_send env_redirected stamped_item empty_world)) = 3%nat.
Proof.
  rewrite (@discord_send_3xx_returns
             env_redirected stamped_item example_hook 1700000000
             (blank_reply 304) (blank_reply 304) (blank_reply 304)
             empty_world);
    [split; reflexivity | try reflexivity; simpl; lia ..].
Defined.

Lemma fetch_html_by_status_witness :
  fst (fetch_html (env_status 404) LIST_URL empty_world) = Raise (HTTPError 404) /\
  fst (fetch_html (env_status 200) LIST_URL empty_world) = Ok (PyStr.lit "body").
Proof.
  split.
  - edestruct (@fetch_html_by_status (env_status 404) LIST_URL empty_world)
      as [_ H]; [vm_compute; reflexivity|].
    destruct H as [_ H]; [simpl; lia|]. rewrite H. reflexivity.
  - edestruct (@fetch_html_by_status (env_status 200) LIST_URL empty_world)
      as [H _]; [vm_compute; reflexivity|].
    rewrite H; [reflexivity|simpl; lia].
Defined.

Lemma failed_notify_keeps_entry_witness :
  exists w1 w2,
    is_new env_down fresh_item empty_world = (Ok (true, stamped_item), w1) /\
    fst (discord_send env_down stamped_item
           (snd (log INFO (MsgNew (title stamped_item) (url stamped_item)) w1)))
    = Raise ConnectionError /\
    seen w2 = seen w1 /\
    rows_for (seen w2) (id fresh_item) = 1%nat /\
    fst (is_new env_down fresh_item (snd (run_cycles [env_down] w2)))
    = Ok (false, fresh_item) /\
    exists evs,
      trace (snd (run_cycles [env_down] w2)) = trace w2 ++ evs /\
      ~ In (Enter_discord_send stamped_item) evs.
Proof.
  eexists _, _.
  split; [vm_compute; reflexivity|].
  split; [vm_compute; reflexivity|].
  edestruct (@failed_notify_keeps_entry env_down fresh_item stamped_item
                                        empty_world)
    as [A [B C]]; [vm_compute; reflexivity | vm_compute; reflexivity |].
  split; [exact A|]. split; [exact B|].
  destruct (C _ [env_down] eq_refl) as [_ [_ [D [evs [T F]]]]].
  split; [apply D; reflexivity|].
  exists evs. split; [exact T|]. apply F. reflexivity.
Defined.


Lemma price_digits_value_witness :
  parse_price env_down (Some (PyStr.lit "11,000 won"))
  = Ok (Some 11000%Z, Some (PyStr.lit "11,000 won")) /\
  parse_price env_down (Some (PyStr.lit "call me"))
  = Ok (None, Some (PyStr.lit "call me")) /\
  parse_price env_down (Some (PyStr.lit "11,000"))
  = Ok (raw_price fresh_item, price fresh_item) /\
  parse_price env_down (Some (repeat 49%N 4301)) = Raise ValueError.
Proof.
  split; [|split; [|split]].
  - destruct (price_digits_value env_down (PyStr.lit "11,000 won"))
      as [H _].
    destruct H as [_ [H _]]; [vm_compute; intros Q; discriminate Q|].
    destruct (H eq_refl) as [E _]. exact E.
  - destruct (price_digits_value env_down (PyStr.lit "call me"))
      as [H _].
    destruct H as [_ [_ [H _]]]; [vm_compute; intros Q; discriminate Q|].
    exact (H eq_refl).
  - destruct (price_digits_value env_down (PyStr.lit "11,000"))
      as [H _].
    destruct H as [_ [_ [_ H]]]; [vm_compute; intros Q; discriminate Q|].
    destruct (H (example_card "22222" []) fresh_item eq_refl eq_refl)
      as [E _].
    exact E.
  - destruct (price_digits_value env_down (repeat 49%N 4301)) as [_ H].
    destruct H as [H _]; [vm_compute; reflexivity|exact H].
Defined.

Lemma norm_img_cases_witness :
  _norm_img env_down (Some (PyStr.lit " /files/a.jpg"))
  = Some (urljoin env_down BASE (PyStr.lit "/files/a.jpg")).
Proof.
  apply (proj1 (proj2 (proj2 (norm_img_cases env_down)))); reflexivity.
Defined.

Lemma notify_failure_aborts_cycle_witness :
  fst (run_once env_down empty_world) = Ok tt /\
  known_in (seen (snd (run_once env_down empty_world))) (PyStr.lit "22222") = true /\
  known_in (seen (snd (run_once env_down empty_world))) (PyStr.lit "33333") = false.
Proof.
  edestruct (@notify_failure_aborts_cycle
               env_down (PyStr.lit "body") (firstn 1 example_items)
               (skipn 2 example_items) fresh_item stamped_item empty_world)
    as [A [B [_ D]]].
  - vm_compute. reflexivity.
  - vm_compute. reflexivity.
  - vm_compute. reflexivity.
  - reflexivity.
  - vm_compute. reflexivity.
  - vm_compute. reflexivity.
  - split; [rewrite A; reflexivity|]. split.
    + rewrite B. reflexivity.
    + apply (D (nth 2 example_items fresh_item)).
      * vm_compute. left. reflexivity.
      * vm_compute. reflexivity.
Defined.

(** * Further properties *)

(** ** Extractor: identifiers and items *)

Lemma take_drop_while (p : N -> bool) (s : str) :
  s = take_while p s ++ drop_while p s.
Proof.
  induction s as [|c s IH]; simpl; [reflexivity|].
  destruct (p c); simpl; congruence.
Qed.

Lemma take_while_all (p : N -> bool) (s : str) :
  forallb p (take_while p s) = true.
Proof.
  induction s as [|c s IH]; simpl; [reflexivity|].
  destruct (p c) eqn:E; simpl; [now rewrite E|reflexivity].
Qed.

Lemma take_while_stop (p : N -> bool) (ds : str) (c : N) (rest : str) :
  forallb p ds = true -> p c = false ->
  take_while p (ds ++ c :: rest) = ds /\ drop_while p (ds ++ c :: rest) = c :: rest.
Proof.
  intros Hds Hc. induction ds as [|d ds IH]; simpl in *.
  - now rewrite Hc.
  - apply andb_true_iff in Hds as [Hd Hds]. rewrite Hd.
    destruct (IH Hds) as [-> ->]. auto.
Qed.

Lemma forallb_rev {A} (p : A -> bool) (l : list A) :
  forallb p (rev l) = forallb p l.
Proof.
  induction l as [|a l IH]; simpl; [reflexivity|].
  rewrite forallb_app, IH. simpl. rewrite andb_true_r. apply andb_comm.
Qed.

Lemma search_back_spec (env : Env) (back pid : str) :
  to_decimal env 47 = None ->
  (match drop_while (is_digit env) back with
   | c :: _ =>
       if (c =? 47)%N
          && (5 <=? List.length (take_while (is_digit env) back))%nat
       then Some (rev (take_while (is_digit env) back))
       else None
   | [] => None
   end = Some pid <->
   exists pre,
     rev back = pre ++ 47%N :: pid /\
     forallb (is_digit env) pid = true /\
     (5 <= List.length pid)%nat).
Proof.
  intros Hslash. split.
  - intros H.
    pose proof (take_drop_while (is_digit env) back) as Hsplit.
    pose proof (take_while_all (is_digit env) back) as Hall.
    destruct (drop_while (is_digit env) back) as [|c rest];
      [discriminate|].
    destruct ((c =? 47)%N
              && (5 <=? List.length (take_while (is_digit env) back))%nat)
      eqn:E; [|discriminate].
    apply andb_true_iff in E as [Ec El]. apply N.eqb_eq in Ec. subst c.
    apply Nat.leb_le in El. injection H as <-.
    exists (rev rest). split; [|split].
    + rewrite Hsplit at 1.
      rewrite rev_app_distr. simpl. now rewrite <- app_assoc.
    + now rewrite forallb_rev.
    + now rewrite length_rev.
  - intros [pre [Hb [Hd Hl]]].
    apply (f_equal (@rev N)) in Hb. rewrite rev_involutive in Hb. subst back.
    rewrite rev_app_distr. simpl. rewrite <- app_assoc. simpl.
    assert (Hs : is_digit env 47 = false) by (unfold is_digit; now rewrite Hslash).
    destruct (@take_while_stop (is_digit env) (rev pid) 47%N (rev pre))
      as [-> ->]; [now rewrite forallb_rev|exact Hs|].
    rewrite N.eqb_refl, length_rev. cbn [andb]. rewrite rev_involutive.
    destruct (List.length pid) as [|[|[|[|[|n]]]]]; solve [lia|reflexivity].
Qed.

Lemma digits_end (env : Env) (pid : str) (c : N) (l : str) :
  forallb (is_digit env) pid = true -> (5 <= List.length pid)%nat ->
  is_digit env c = false ->
  forall pre, pre ++ 47%N :: pid <> l ++ [c].
Proof.
  intros Hd Hl Hc pre E.
  destruct (exists_last (l := pid)) as [front [d Hp]];
    [destruct pid; [simpl in Hl; lia|discriminate]|].
  subst pid. rewrite forallb_app in Hd. apply andb_true_iff in Hd as [_ Hd].
  simpl in Hd. rewrite andb_true_r in Hd.
  change (pre ++ 47%N :: front ++ [d]) with (pre ++ (47%N :: front) ++ [d]) in E.
  rewrite app_assoc in E. apply app_inj_tail in E as [_ ->]. congruence.
Qed.

(** X1. [POST_ID_RE.search(href)] finds an identifier exactly when [href]
    ends with a slash followed by five or more decimal digits and then
    nothing, or one newline, and the identifier is that run of digits.
    (The slash and the newline are no decimal digits of the Unicode
    table.) *)
Theorem POST_ID_RE_search_spec (env : Env) (href pid : str) :
  to_decimal env 47 = None ->
  to_decimal env 10 = None ->
  (POST_ID_RE_search env href = Some pid <->
   exists pre,
     (href = pre ++ 47%N :: pid \/ href = pre ++ 47%N :: pid ++ [10%N]) /\
     forallb (is_digit env) pid = true /\
     (5 <= List.length pid)%nat).
Proof.
  intros Hslash Hnl. unfold POST_ID_RE_search.
  assert (Hn : is_digit env 10 = false) by (unfold is_digit; now rewrite Hnl).
  pose proof (rev_involutive href) as Hrev.
  destruct (rev href) as [|c r]; cbv zeta.
  - simpl in Hrev. subst href. split; [discriminate|].
    intros [pre [[E|E] _]]; destruct pre; discriminate.
  - simpl in Hrev. destruct (N.eqb_spec c 10) as [->|Hc].
    + rewrite (search_back_spec env r pid Hslash). subst href. split.
      * intros [pre [E [Hd Hl]]]. exists pre. split; [right|auto].
        rewrite E, <- app_assoc. reflexivity.
      * intros [pre [[E|E] [Hd Hl]]].
        { symmetry in E.
          destruct (@digits_end env pid 10%N (rev r) Hd Hl Hn pre E). }
        exists pre. split; [|auto].
        change (pre ++ 47%N :: pid ++ [10%N])
          with (pre ++ (47%N :: pid) ++ [10%N]) in E.
        rewrite app_assoc in E. now apply app_inj_tail in E as [E _].
    + rewrite (search_back_spec env (c :: r) pid Hslash). simpl rev.
      rewrite Hrev. split.
      * intros [pre [E [Hd Hl]]]. exists pre. split; [now left|auto].
      * intros [pre [[E|E] [Hd Hl]]]; [exists pre; auto|].
        subst href.
        change (pre ++ 47%N :: pid ++ [10%N])
          with (pre ++ (47%N :: pid) ++ [10%N]) in E.
        rewrite app_assoc in E. apply app_inj_tail in E as [_ E]. congruence.
Qed.

Lemma POST_ID_RE_search_spec_witness :
  POST_ID_RE_search env_down (PyStr.lit "/ski_sell2/22222")
  = Some (PyStr.lit "22222") /\
  POST_ID_RE_search env_down (PyStr.lit "/ski_sell2/22222" ++ [10%N])
  = Some (PyStr.lit "22222").
Proof.
  split.
  - apply (proj2 (@POST_ID_RE_search_spec env_down (PyStr.lit "/ski_sell2/22222")
                    (PyStr.lit "22222") eq_refl eq_refl)).
    exists (PyStr.lit "/ski_sell2"). split; [now left|]. split; [reflexivity|].
    simpl. lia.
  - apply (proj2 (@POST_ID_RE_search_spec env_down
                    (PyStr.lit "/ski_sell2/22222" ++ [10%N])
                    (PyStr.lit "22222") eq_refl eq_refl)).
    exists (PyStr.lit "/ski_sell2"). split; [now right|]. split; [reflexivity|].
    simpl. lia.
Defined.

Lemma POST_ID_RE_search_digits (env : Env) (href pid : str) :
  POST_ID_RE_search env href = Some pid ->
  forallb (is_digit env) pid = true /\ (5 <= List.length pid)%nat.
Proof.
  unfold POST_ID_RE_search. cbv zeta.
  set (back := match rev href with
               | c :: r => if (c =? 10)%N then r else c :: r
               | [] => []
               end).
  intros H.
  pose proof (take_while_all (is_digit env) back) as Hall.
  destruct (drop_while (is_digit env) back) as [|c rest]; [discriminate|].
  destruct ((c =? 47)%N
            && (5 <=? List.length (take_while (is_digit env) back))%nat)
    eqn:E; [|discriminate].
  apply andb_true_iff in E as [_ El]. apply Nat.leb_le in El.
  injection H as <-. now rewrite forallb_rev, length_rev.
Qed.

Lemma parse_price_nonneg (env : Env) (el : option str)
      (rp : option Z * option str) :
  parse_price env el = Ok rp ->
  match fst rp with Some n => (0 <= n)%Z | None => True end.
Proof.
  destruct el as [s|]; cbn [parse_price];
    [|intros H; injection H as <-; exact I].
  destruct (PyStr.truthy (only_digits env s));
    [|intros H; injection H as <-; exact I].
  unfold int_of_digits.
  destruct (int_max_str_digits <? _)%N; [discriminate|].
  intros H; injection H as <-. cbn [fst].
  rewrite horner_positional. apply positional_nonneg.
Qed.

(** X2. Every item [parse_list] emits comes from a card of the page, has
    an identifier of five or more decimal digits (so never an empty one),
    carries the card's status tags unchanged, has no [date] yet, and has
    a numeric price that is absent or not negative. *)
Theorem parse_cards_items (env : Env) (cards : list Card) (items : list Item)
        (it : Item) :
  parse_cards env cards = Ok items ->
  In it items ->
  (exists a, In a cards /\ parse_card env a = Ok (Some it) /\
             status it = c_status a) /\
  forallb (is_digit env) (id it) = true /\
  (5 <= List.length (id it))%nat /\
  date it = None /\
  match raw_price it with Some n => (0 <= n)%Z | None => True end.
Proof.
  revert items. induction cards as [|a cards IH]; intros items; cbn [parse_cards].
  - intros H; injection H as <-. contradiction.
  - destruct (parse_card env a) as [o|e] eqn:E; [|discriminate].
    destruct (parse_cards env cards) as [items'|e]; [|discriminate].
    intros H; injection H as <-.
    assert (Tail : In it items' ->
                   (exists a0, In a0 (a :: cards) /\
                               parse_card env a0 = Ok (Some it) /\
                               status it = c_status a0) /\
                   forallb (is_digit env) (id it) = true /\
                   (5 <= List.length (id it))%nat /\
                   date it = None /\
                   match raw_price it with
                   | Some n => (0 <= n)%Z
                   | None => True
                   end).
    { intros Hin. destruct (IH items' eq_refl Hin) as [[b [Hb Hc]] Hrest].
      split; [exists b; split; [now right|exact Hc]|exact Hrest]. }
    destruct o as [it0|]; [|exact Tail].
    intros [<-|Hin]; [|exact (Tail Hin)].
    pose proof E as E0. unfold parse_card in E.
    destruct (POST_ID_RE_search env (PyStr.strip (or_empty (c_href a))))
      as [pid|] eqn:S; [|discriminate].
    destruct (parse_price env (c_price a)) as [rp|e] eqn:P; [|discriminate].
    injection E as E. destruct (POST_ID_RE_search_digits _ _ S) as [Hd Hl].
    pose proof (parse_price_nonneg _ _ P) as Hn.
    split; [exists a; split; [now left|]; split;
            [exact E0|now rewrite <- E]|].
    rewrite <- E. cbn [id date raw_price]. repeat split; auto.
Qed.

Lemma parse_cards_items_witness :
  forallb (is_digit env_down) (id fresh_item) = true /\
  date fresh_item = None.
Proof.
  destruct (@parse_cards_items env_down example_page example_items fresh_item)
    as [_ [A [_ [B _]]]].
  - vm_compute. reflexivity.
  - vm_compute. right. left. reflexivity.
  - split; [exact A|exact B].
Defined.

(** ** Extractor: views and comments *)

Lemma last_cons {A} (a d : A) (l : list A) : last (a :: l) d = last l a.
Proof.
  revert a d. induction l as [|b l IH]; intros a d; [reflexivity|].
  change (last (a :: b :: l) d) with (last (b :: l) d).
  now rewrite (IH b d), (IH b a).
Qed.

Lemma views_not_comments (txt : str) :
  PyStr.startswith txt VIEWS_LABEL = true ->
  PyStr.startswith txt COMMENTS_LABEL = false.
Proof.
  destruct txt as [|c txt]; simpl; [discriminate|].
  destruct (N.eqb_spec c 51312); [subst; reflexivity|discriminate].
Qed.

(** X4. The scan of the metadata rows keeps, for the views, the span text
    of the last row whose text starts with the views label, and likewise
    for the comments; with no such row the value it started from stays
    (the empty string in [parse_list]); a labelled row without a span
    gives the empty string. *)
Theorem scan_etc_last (rows : list (str * option str)) (acc : str * str) :
  scan_etc rows acc
  = (last (labelled VIEWS_LABEL rows) (fst acc),
     last (labelled COMMENTS_LABEL rows) (snd acc)).
Proof.
  revert acc. induction rows as [|[txt sp] rows IH]; intros [v c].
  - reflexivity.
  - cbn [scan_etc labelled].
    destruct (PyStr.startswith txt VIEWS_LABEL) eqn:V.
    + rewrite (views_not_comments _ V), IH, last_cons. reflexivity.
    + destruct (PyStr.startswith txt COMMENTS_LABEL) eqn:C.
      * rewrite IH, last_cons. reflexivity.
      * apply IH.
Qed.
(** ** Seen store: what one check does *)




(** ** Runner: no identifier is notified twice *)

Lemma notified_app (a b : list Event) :
  notified (a ++ b) = notified a ++ notified b.
Proof.
  induction a as [|ev a IH]; simpl; [reflexivity|].
  destruct ev; simpl; congruence.
Qed.

Lemma notified_io (evs : list Event) :
  Forall (fun ev => is_io ev = true) evs -> notified evs = [].
Proof.
  induction 1 as [|ev evs H _ IH]; simpl; [reflexivity|].
  destruct ev; simpl in *; try discriminate; exact IH.
Qed.

Lemma stamped_io (evs : list Event) :
  Forall (fun ev => is_io ev = true) evs -> Forall stamped_call evs.
Proof.
  induction 1 as [|ev evs H _ IH]; constructor; [|exact IH].
  destruct ev; simpl in *; try discriminate; exact I.
Qed.

Lemma known_in_mono (rows extra : list SeenEntry) (p : str) :
  known_in rows p = true -> known_in (rows ++ extra) p = true.
Proof. intros H. now rewrite known_in_app, H. Qed.

Lemma known_in_mono_false (rows extra : list SeenEntry) (p : str) :
  known_in (rows ++ extra) p = false -> known_in rows p = false.
Proof. rewrite known_in_app. intros H. now apply orb_false_iff in H. Qed.

Lemma once_each_refl (w : World) : once_each w w.
Proof.
  exists [], []. rewrite !app_nil_r.
  split; [reflexivity|]. split; [reflexivity|].
  split; [constructor|]. split; [constructor|]. intros p [].
Qed.

Lemma once_each_trans (w1 w2 w3 : World) :
  once_each w1 w2 -> once_each w2 w3 -> once_each w1 w3.
Proof.
  intros [r1 [e1 [S1 [T1 [N1 [D1 K1]]]]]] [r2 [e2 [S2 [T2 [N2 [D2 K2]]]]]].
  exists (r1 ++ r2), (e1 ++ e2).
  split; [now rewrite S2, S1, app_assoc|].
  split; [now rewrite T2, T1, app_assoc|].
  split; [|split; [now apply Forall_app|]].
  - rewrite notified_app. apply NoDup_app; [exact N1|exact N2|].
    intros p H1 H2. apply K1 in H1. apply K2 in H2. destruct H1, H2. congruence.
  - intros p Hp. rewrite notified_app in Hp. apply in_app_or in Hp as [Hp|Hp].
    + destruct (K1 p Hp) as [A B]. split; [exact A|].
      rewrite S2. now apply known_in_mono.
    + destruct (K2 p Hp) as [A B]. split; [|exact B].
      rewrite S1 in A. now apply known_in_mono_false in A.
Qed.

Lemma once_each_quiet (R : SeenEntry -> Prop) (w w' : World) :
  grows (fun ev => is_io ev = true) R w w' -> once_each w w'.
Proof.
  intros [[rows [S _]] [evs [T F]]]. exists rows, evs.
  split; [exact S|]. split; [exact T|].
  rewrite (notified_io F). split; [constructor|].
  split; [now apply stamped_io|]. intros p [].
Qed.

Lemma process_item_once (env : Env) (it : Item) (w : World) :
  once_each w (snd (process_item env it w)).
Proof.
  unfold process_item.
  destruct (PyStr.mem IN_PROGRESS (status it)).
  { apply (@once_each_quiet (fun _ => True)). now apply keeps_log. }
  unfold bind at 1. destruct (known_in (seen w) (id it)) eqn:K.
  - rewrite (is_new_known env it w K). cbv beta iota.
    exists [], [Enter_is_new it; SqlSelect (id it); Log DEBUG (MsgSeen (id it))].
    simpl. rewrite app_nil_r, <- app_assoc. simpl.
    split; [reflexivity|]. split; [reflexivity|].
    split; [constructor|]. split; [repeat constructor|]. intros p [].
  - destruct (clock_fits env (clock_reads w) && price_fits it) eqn:B.
    2:{ rewrite (is_new_overflow env it w K B). cbv beta iota.
        exists [], [Enter_is_new it; SqlSelect (id it)].
        cbn [snd seen trace notified]. rewrite app_nil_r.
        split; [reflexivity|]. split; [reflexivity|].
        split; [constructor|]. split; [repeat constructor|]. intros p []. }
    apply andb_true_iff in B as [Bc Bp].
    rewrite (is_new_unknown env it w K Bc Bp). cbv beta iota zeta.
    set (ts := int_of_float (time_time env (clock_reads w))).
    set (row := mkSeen (id it) ts (title it) (raw_price it)).
    unfold bind at 1. unfold log at 1, emit at 1. cbv beta iota.
    match goal with
    | |- once_each _ (snd (discord_send _ _ ?w0)) => set (wd := w0)
    end.
    destruct (discord_send_io env (set_date it ts) wd) as [evs [T F]].
    pose proof (discord_send_store env (set_date it ts) wd) as Hs.
    exists [row],
      ([Enter_is_new it; SqlSelect (id it); SqlInsert row;
        Log INFO (MsgNew (title it) (url it))]
       ++ Enter_discord_send (set_date it ts) :: evs).
    split; [rewrite Hs; reflexivity|]. split.
    { rewrite T. unfold wd. simpl. rewrite <- !app_assoc. reflexivity. }
    simpl. rewrite (notified_io F).
    split; [repeat constructor; intros []|].
    split.
    { repeat constructor; [discriminate|now apply stamped_io]. }
    intros p [<-|[]]. split; [exact K|].
    rewrite Hs. unfold wd. simpl. rewrite known_in_app. simpl.
    now rewrite PyStr_eqb_refl, orb_true_r.
Qed.

Lemma run_items_once (env : Env) (items : list Item) (w : World) :
  once_each w (snd (run_items env items w)).
Proof.
  revert w. induction items as [|it rest IH]; intros w; simpl.
  - apply once_each_refl.
  - unfold bind. pose proof (process_item_once env it w) as H1.
    destruct (process_item env it w) as [[[]|e] w1]; simpl in *; [|exact H1].
    eapply once_each_trans; [exact H1|apply IH].
Qed.

Lemma io_is_io (ev : Event) : is_io ev = true -> is_io ev = true.
Proof. exact (fun H => H). Qed.

Lemma run_once_once (env : Env) (w : World) :
  once_each w (snd (run_once env w)).
Proof.
  unfold run_once, try_except.
  assert (H : once_each w (snd ((html <- fetch_html env LIST_URL ;;
                                 items <- parse_list env html ;;
                                 run_items env items) w))).
  { unfold bind at 1.
    pose proof (@keeps_fetch_html (fun ev => is_io ev = true) (fun _ => True)
                  io_is_io env LIST_URL w) as G1.
    apply once_each_quiet in G1.
    destruct (fetch_html env LIST_URL w) as [[html|e] w1]; simpl in *;
      [|exact G1].
    unfold bind at 1.
    pose proof (@keeps_parse_list (fun ev => is_io ev = true) (fun _ => True)
                  io_is_io env html w1) as G2.
    apply once_each_quiet in G2.
    destruct (parse_list env html w1) as [[items|e] w2]; simpl in *;
      [|eapply once_each_trans; eauto].
    eapply once_each_trans; [exact G1|].
    eapply once_each_trans; [exact G2|apply run_items_once]. }
  destruct ((html <- fetch_html env LIST_URL ;;
             items <- parse_list env html ;;
             run_items env items) w) as [[a|e] w']; simpl in *; [exact H|].
  eapply once_each_trans; [exact H|].
  apply (@once_each_quiet (fun _ => True)). now apply keeps_log.
Qed.

(** X7. Over any number of cycles, whatever they meet, the calls of
    [discord_send] are for pairwise distinct identifiers: no identifier
    is notified twice.  Each notified identifier was unknown to the table
    the cycles started from and is in the table they leave, and each
    call is made on an item that carries its [date]. *)
Theorem notified_once (envs : list Env) (w : World) :
  exists rows evs,
    seen (snd (run_cycles envs w)) = seen w ++ rows /\
    trace (snd (run_cycles envs w)) = trace w ++ evs /\
    NoDup (notified evs) /\
    (forall it, In (Enter_discord_send it) evs -> date it <> None) /\
    (forall p, In p (notified evs) ->
               known_in (seen w) p = false /\
               known_in (seen (snd (run_cycles envs w))) p = true).
Proof.
  assert (H : once_each w (snd (run_cycles envs w))).
  { revert w. induction envs as [|env rest IH]; intros w; simpl.
    - apply once_each_refl.
    - unfold bind. pose proof (run_once_once env w) as H1.
      destruct (run_once env w) as [[[]|e] w1]; simpl in *; [|exact H1].
      eapply once_each_trans; [exact H1|apply IH]. }
  destruct H as [rows [evs [S [T [N [D K]]]]]].
  exists rows, evs. repeat split; auto; try (now apply K).
  intros it Hin. rewrite Forall_forall in D. exact (D _ Hin).
Qed.

(** ** Notifier: one attempt, case by case *)

Lemma send_attempt_delivered (env : Env) (hook t : str) (body : Payload)
      (k : Z) (r : Response) (w : World) :
  post_exchange env (posts w) hook body = Replies r ->
  (200 <= status_code r < 300)%Z ->
  send_attempt env hook t body k w
  = (Ok Returned, after_post w (delivered_attempt hook t body k r)).
Proof.
  intros Hx Hs.
  assert (E : ((status_code r =? 204)
               || (200 <=? status_code r) && (status_code r <? 300))%Z = true).
  { apply orb_true_iff. right. apply andb_true_iff.
    split; [apply Z.leb_le|apply Z.ltb_lt]; lia. }
  unfold send_attempt, try_except, bind, log, emit, http_post. simpl.
  rewrite Hx, E. unfold ret, after_post, delivered_attempt. simpl.
  now rewrite <- !app_assoc.
Qed.

Lemma send_attempt_default_wait (env : Env) (hook t : str) (body : Payload)
      (k : Z) (r : Response) (w : World) :
  post_exchange env (posts w) hook body = Replies r ->
  status_code r = 429%Z ->
  json r = NotJson \/ json r = JsonObject None ->
  send_attempt env hook t body k w
  = (Ok NextAttempt, after_post w (limited_attempt hook t body k 1)).
Proof.
  intros Hx Hs Hj.
  unfold send_attempt, try_except, bind, log, emit, http_post. simpl.
  rewrite Hx, Hs. simpl. unfold read_retry_after.
  destruct Hj as [-> | ->]; simpl; unfold after_post, limited_attempt;
    now rewrite <- !app_assoc.
Qed.

Lemma send_attempt_failed (env : Env) (hook t : str) (body : Payload)
      (k : Z) (x : Exchange) (e : Exc) (w : World) :
  post_exchange env (posts w) hook body = x ->
  hard_error x = Some e ->
  (0 <= k)%Z ->
  send_attempt env hook t body k w
  = if (k <? max_attempts)%Z
    then (Ok NextAttempt,
          after_post w (failed_attempt hook t body k x e
                        ++ [Sleep ((3 # 2) * inject_Z k)]))
    else (Raise e, after_post w (failed_attempt hook t body k x e)).
Proof.
  intros Hx He Hk.
  assert (Hsleep : Qle_bool 0 ((3 # 2) * inject_Z k) = true).
  { apply Qle_bool_iff. apply Qmult_le_0_compat; [discriminate|].
    now rewrite <- (Zle_Qle 0). }
  assert (Hreq : is_RequestException e = true).
  { destruct x as [r|e0]; simpl in He.
    - destruct ((400 <=? status_code r) && (status_code r <? 600)
                && negb (status_code r =? 429))%Z; [|discriminate].
      now injection He as <-.
    - destruct (is_RequestException e0) eqn:R; [|discriminate].
      now injection He as <-. }
  unfold send_attempt, try_except, bind, log, emit, http_post. simpl.
  rewrite Hx. destruct x as [r|e0]; simpl in He.
  - destruct ((400 <=? status_code r) && (status_code r <? 600)
              && negb (status_code r =? 429))%Z eqn:C; [|discriminate].
    injection He as <-.
    apply andb_true_iff in C as [C C3]. apply negb_true_iff in C3.
    pose proof C as C'. apply andb_true_iff in C' as [C1 C2].
    apply Z.leb_le in C1. apply Z.ltb_lt in C2.
    replace ((status_code r =? 204)
             || (200 <=? status_code r) && (status_code r <? 300))%Z with false.
    2:{ symmetry. apply orb_false_iff. split; [apply Z.eqb_neq; lia|].
        apply andb_false_iff. right. apply Z.ltb_ge. lia. }
    rewrite C3. unfold raise_for_status. rewrite C. unfold raise. simpl.
    destruct (k <? max_attempts)%Z.
    + unfold sleep. rewrite Hsleep. unfold emit, ret. simpl.
      unfold after_post, failed_attempt, snippet300. simpl.
      now rewrite <- !app_assoc.
    + unfold after_post, failed_attempt, snippet300. simpl.
      now rewrite <- !app_assoc.
  - destruct (is_RequestException e0) eqn:R; [|discriminate].
    injection He as <-. unfold raise. rewrite R. simpl.
    destruct (k <? max_attempts)%Z.
    + unfold sleep. rewrite Hsleep. unfold emit, ret. simpl.
      unfold after_post, failed_attempt. simpl. now rewrite <- !app_assoc.
    + unfold after_post, failed_attempt. simpl. now rewrite <- !app_assoc.
Qed.

Lemma send_attempt_bad_wait (env : Env) (hook t : str) (body : Payload)
      (k : Z) (r : Response) (e : Exc) (w : World) :
  post_exchange env (posts w) hook body = Replies r ->
  status_code r = 429%Z ->
  wait_error env r = Some e ->
  send_attempt env hook t body k w
  = (Raise e,
     after_post w [Log INFO (MsgSendAttempt k max_attempts t);
                   HttpPost hook body]).
Proof.
  intros Hx Hs He.
  unfold send_attempt, try_except, bind, log, emit, http_post. simpl.
  rewrite Hx, Hs. simpl. unfold read_retry_after, wait_error in *.
  destruct (json r) as [|[[q|b|s| |]|]|]; try discriminate; simpl.
  - destruct (float_of_str env s); [discriminate|]. injection He as <-.
    unfold raise. simpl. unfold after_post. now rewrite <- !app_assoc.
  - injection He as <-. unfold raise. simpl. unfold after_post.
    now rewrite <- !app_assoc.
  - injection He as <-. unfold raise. simpl. unfold after_post.
    now rewrite <- !app_assoc.
  - injection He as <-. unfold raise. simpl. unfold after_post.
    now rewrite <- !app_assoc.
Qed.

(** ** Notifier: whole calls *)




(** X9. When the first reply is a 2xx, [discord_send] returns after that
    single POST: no sleep, no second attempt. *)
Theorem discord_send_delivers (env : Env) (item : Item) (hook : str)
        (ts : Z) (r : Response) (w : World) :
  DISCORD_WEBHOOK env = Some hook ->
  PyStr.truthy hook = true ->
  date item = Some ts ->
  let t := PyStr.strip (title item) in
  let body := build_payload env item ts in
  post_exchange env (posts w) hook body = Replies r ->
  (200 <= status_code r < 300)%Z ->
  discord_send env item w
  = (Ok tt,
     mkWorld (seen w) (clock_reads w) (gets w) (1 + posts w)
             (trace w ++ Enter_discord_send item
                      :: delivered_attempt hook t body 1 r)).
Proof.
  intros Hh Ht Hd t body X1 S1.
  rewrite (@discord_send_enabled env item hook ts w Hh Ht Hd).
  fold t body. unfold attempt_range, send_loop.
  unfold bind at 1. erewrite send_attempt_delivered; [|exact X1|exact S1].
  unfold ret, after_post. simpl. now rewrite <- !app_assoc.
Qed.

(** X10. When the first reply is a 429 whose body is not JSON or has no
    [retry_after], [discord_send] waits the default 1.0 + 0.25 seconds
    and posts the same payload again; when that second reply is a 2xx the
    call returns, after exactly two POSTs. *)
Theorem discord_send_default_wait (env : Env) (item : Item) (hook : str)
        (ts : Z) (r1 r2 : Response) (w : World) :
  DISCORD_WEBHOOK env = Some hook ->
  PyStr.truthy hook = true ->
  date item = Some ts ->
  let t := PyStr.strip (title item) in
  let body := build_payload env item ts in
  post_exchange env (posts w) hook body = Replies r1 ->
  post_exchange env (1 + posts w) hook body = Replies r2 ->
  status_code r1 = 429%Z ->
  json r1 = NotJson \/ json r1 = JsonObject None ->
  (200 <= status_code r2 < 300)%Z ->
  discord_send env item w
  = (Ok tt,
     mkWorld (seen w) (clock_reads w) (gets w) (2 + posts w)
             (trace w ++ Enter_discord_send item
                      :: limited_attempt hook t body 1 1
                      ++ delivered_attempt hook t body 2 r2)).
Proof.
  intros Hh Ht Hd t body X1 X2 S1 J1 S2.
  rewrite (@discord_send_enabled env item hook ts w Hh Ht Hd).
  fold t body. unfold attempt_range, send_loop.
  unfold bind at 1.
  erewrite send_attempt_default_wait; [|exact X1|exact S1|exact J1].
  unfold bind at 1. erewrite send_attempt_delivered; [|exact X2|exact S2].
  unfold ret, after_post. simpl. now rewrite <- !app_assoc.
Qed.

(** X11. When each of the three attempts fails for good (the POST raises
    a request exception, or the reply is a 4xx/5xx other than 429),
    [discord_send] sleeps 1.5 seconds after the first failure and 3.0
    after the second, and raises the error of the third attempt to its
    caller, after logging each failure. *)
Theorem discord_send_gives_up (env : Env) (item : Item) (hook : str)
        (ts : Z) (e1 e2 e3 : Exc) (w : World) :
  DISCORD_WEBHOOK env = Some hook ->
  PyStr.truthy hook = true ->
  date item = Some ts ->
  let t := PyStr.strip (title item) in
  let body := build_payload env item ts in
  let x1 := post_exchange env (posts w) hook body in
  let x2 := post_exchange env (1 + posts w) hook body in
  let x3 := post_exchange env (2 + posts w) hook body in
  hard_error x1 = Some e1 ->
  hard_error x2 = Some e2 ->
  hard_error x3 = Some e3 ->
  discord_send env item w
  = (Raise e3,
     mkWorld (seen w) (clock_reads w) (gets w) (3 + posts w)
             (trace w ++ Enter_discord_send item
                      :: (failed_attempt hook t body 1 x1 e1
                          ++ [Sleep ((3 # 2) * 1)])
                      ++ (failed_attempt hook t body 2 x2 e2
                          ++ [Sleep ((3 # 2) * 2)])
                      ++ failed_attempt hook t body 3 x3 e3)).
Proof.
  intros Hh Ht Hd t body x1 x2 x3 H1 H2 H3.
  rewrite (@discord_send_enabled env item hook ts w Hh Ht Hd).
  fold t body. unfold attempt_range, send_loop.
  unfold bind at 1.
  erewrite send_attempt_failed; [|reflexivity|exact H1|lia].
  cbn [Z.ltb Z.compare max_attempts Pos.compare Pos.compare_cont].
  unfold bind at 1.
  erewrite send_attempt_failed; [|reflexivity|exact H2|lia].
  cbn [Z.ltb Z.compare max_attempts Pos.compare Pos.compare_cont].
  unfold bind at 1.
  erewrite send_attempt_failed; [|reflexivity|exact H3|lia].
  cbn [Z.ltb Z.compare max_attempts Pos.compare Pos.compare_cont].
  unfold after_post, failed_attempt. cbn [seen clock_reads gets posts trace].
  repeat (progress (cbn [app]; rewrite <- ?app_assoc)). reflexivity.
Qed.

(** X12. A failed attempt does not end the call while attempts remain:
    when the first attempt fails for good and the second reply is a 2xx,
    [discord_send] sleeps 1.5 seconds in between and returns normally
    after the second POST. *)
Theorem discord_send_recovers (env : Env) (item : Item) (hook : str)
        (ts : Z) (e1 : Exc) (r2 : Response) (w : World) :
  DISCORD_WEBHOOK env = Some hook ->
  PyStr.truthy hook = true ->
  date item = Some ts ->
  let t := PyStr.strip (title item) in
  let body := build_payload env item ts in
  let x1 := post_exchange env (posts w) hook body in
  hard_error x1 = Some e1 ->
  post_exchange env (1 + posts w) hook body = Replies r2 ->
  (200 <= status_code r2 < 300)%Z ->
  discord_send env item w
  = (Ok tt,
     mkWorld (seen w) (clock_reads w) (gets w) (2 + posts w)
             (trace w ++ Enter_discord_send item
                      :: (failed_attempt hook t body 1 x1 e1
                          ++ [Sleep ((3 # 2) * 1)])
                      ++ delivered_attempt hook t body 2 r2)).
Proof.
  intros Hh Ht Hd t body x1 H1 X2 S2.
  rewrite (@discord_send_enabled env item hook ts w Hh Ht Hd).
  fold t body. unfold attempt_range, send_loop.
  unfold bind at 1.
  erewrite send_attempt_failed; [|reflexivity|exact H1|lia].
  cbn [Z.ltb Z.compare max_attempts Pos.compare Pos.compare_cont].
  unfold bind at 1. erewrite send_attempt_delivered; [|exact X2|exact S2].
  unfold ret, after_post, failed_attempt, delivered_attempt.
  cbn [seen clock_reads gets posts trace].
  repeat (progress (cbn [app]; rewrite <- ?app_assoc)). reflexivity.
Qed.

(** X13. A 429 whose body gives no usable wait ends the call at once: a
    JSON document that is not an object raises [AttributeError], a
    [retry_after] that is null or a container raises [TypeError], one
    that is a string [float()] rejects raises [ValueError].  None of
    these is a request exception, so the handler of the loop does not
    catch it: after the POST there is no log line, no sleep and no
    further attempt. *)
Theorem discord_send_bad_wait (env : Env) (item : Item) (hook : str)
        (ts : Z) (r : Response) (e : Exc) (w : World) :
  DISCORD_WEBHOOK env = Some hook ->
  PyStr.truthy hook = true ->
  date item = Some ts ->
  let t := PyStr.strip (title item) in
  let body := build_payload env item ts in
  post_exchange env (posts w) hook body = Replies r ->
  status_code r = 429%Z ->
  wait_error env r = Some e ->
  discord_send env item w
  = (Raise e,
     mkWorld (seen w) (clock_reads w) (gets w) (1 + posts w)
             (trace w ++ [Enter_discord_send item;
                          Log INFO (MsgSendAttempt 1 max_attempts t);
                          HttpPost hook body])).
Proof.
  intros Hh Ht Hd t body X1 S1 E1.
  rewrite (@discord_send_enabled env item hook ts w Hh Ht Hd).
  fold t body. unfold attempt_range, send_loop.
  unfold bind at 1.
  erewrite send_attempt_bad_wait; [|exact X1|exact S1|exact E1].
  unfold after_post. simpl. now rewrite <- !app_assoc.
Qed.

(** ** Fetcher: single exchanges, retries and exhaustion *)

Lemma not_retryable_is_retry (total : nat) (r : Response) :
  retryable (Replies r) = false -> is_retry total r = false.
Proof.
  unfold retryable, is_retry. intros H.
  apply orb_false_iff in H as [H1 H2]. rewrite H1. simpl.
  destruct (Nat.eqb total 0); simpl; [reflexivity|exact H2].
Qed.

Lemma urlopen_final (env : Env) (u : str) (total errors : nat) (r : Response)
      (w : World) :
  get_exchange env (gets w) u = Replies r ->
  retryable (Replies r) = false ->
  urlopen env u total errors w
  = (Ok r, mkWorld (seen w) (clock_reads w) (S (gets w)) (posts w)
                   (trace w ++ [HttpGet u])).
Proof.
  intros Hx Hr. destruct total; simpl; unfold bind, http_get;
    rewrite Hx, (not_retryable_is_retry _ _ Hr); reflexivity.
Qed.

Lemma resolve_redirects_raise (env : Env) (u : str) (hops : nat)
      (w w1 : World) (e : Exc) :
  urlopen env u retry_total 0 w = (Raise e, w1) ->
  resolve_redirects env u hops w = (Raise e, w1).
Proof.
  intros E. destruct hops; cbn [resolve_redirects]; unfold bind at 1;
    rewrite E; reflexivity.
Qed.

(** X14. A reply the retry policy does not cover, and which is no
    redirect the session follows, ends the fetch after that one GET,
    without any sleep.  Below 400 [fetch_html] returns the body;
    from 400 to 599 it logs the warning and raises the status error; from
    600 on it logs the warning and still returns the body, because
    [raise_for_status] raises for 400 to 599 only. *)
Theorem fetch_html_single_exchange (env : Env) (u : str) (r : Response)
        (w : World) :
  get_exchange env (gets w) u = Replies r ->
  retryable (Replies r) = false ->
  redirect_target r = None ->
  let got := trace w ++ [Log INFO (MsgFetching u); HttpGet u] in
  let warned :=
    got ++ [Log WARNING (MsgHttpStatus (status_code r) u (snippet500 r))] in
  ((status_code r < 400)%Z ->
   fetch_html env u w
   = (Ok (text r),
      mkWorld (seen w) (clock_reads w) (S (gets w)) (posts w) got)) /\
  ((400 <= status_code r < 600)%Z ->
   fetch_html env u w
   = (Raise (HTTPError (status_code r)),
      mkWorld (seen w) (clock_reads w) (S (gets w)) (posts w)
              (warned ++ [Log ERROR (MsgFetchFailed u
                                       (HTTPError (status_code r)))]))) /\
  ((600 <= status_code r)%Z ->
   fetch_html env u w
   = (Ok (text r),
      mkWorld (seen w) (clock_reads w) (S (gets w)) (posts w) warned)).
Proof.
  intros Hx Hr Hd got warned.
  assert (Hget : session_get env u (snd (log INFO (MsgFetching u) w))
                 = (Ok r, mkWorld (seen w) (clock_reads w) (S (gets w))
                                  (posts w) got)).
  { unfold session_get. erewrite resolve_redirects_final; [reflexivity| |exact Hd].
    erewrite urlopen_final; [|exact Hx|exact Hr].
    simpl. unfold got. now rewrite <- app_assoc. }
  split; [|split]; intros Hs.
  - rewrite (fetch_html_unfold _ _ _ Hget).
    replace (400 <=? status_code r)%Z with false
      by (symmetry; apply Z.leb_gt; lia).
    reflexivity.
  - rewrite (fetch_html_error_status _ _ _ Hget Hs). simpl.
    unfold warned. now rewrite <- !app_assoc.
  - rewrite (fetch_html_unfold _ _ _ Hget).
    replace (400 <=? status_code r)%Z with true
      by (symmetry; apply Z.leb_le; lia).
    unfold raise_for_status.
    replace ((400 <=? status_code r) && (status_code r <? 600))%Z with false.
    2:{ symmetry. apply andb_false_iff. right. apply Z.ltb_ge. lia. }
    reflexivity.
Qed.

Lemma urlopen_after_failure (env : Env) (u : str) (total errors : nat)
      (e : Exc) (w : World) :
  get_exchange env (gets w) u = Fails e ->
  urlopen env u (S total) errors w
  = (sleep_backoff (S errors) ;; urlopen env u total (S errors))
      (mkWorld (seen w) (clock_reads w) (S (gets w)) (posts w)
               (trace w ++ [HttpGet u])).
Proof.
  intros Hx. simpl. unfold bind at 1. unfold http_get at 1. now rewrite Hx.
Qed.

Lemma urlopen_after_reply (env : Env) (u : str) (total errors : nat)
      (r : Response) (w : World) :
  get_exchange env (gets w) u = Replies r ->
  is_retry (S total) r = true ->
  urlopen env u (S total) errors w
  = (retry_sleep r (S errors) ;; urlopen env u total (S errors))
      (mkWorld (seen w) (clock_reads w) (S (gets w)) (posts w)
               (trace w ++ [HttpGet u])).
Proof.
  intros Hx Hr. simpl. unfold bind at 1. unfold http_get at 1.
  now rewrite Hx, Hr.
Qed.

Lemma urlopen_exhausted (env : Env) (u : str) (errors : nat) (e : Exc)
      (w : World) :
  get_exchange env (gets w) u = Fails e ->
  urlopen env u 0 errors w
  = (Raise e, mkWorld (seen w) (clock_reads w) (S (gets w)) (posts w)
                      (trace w ++ [HttpGet u])).
Proof.
  intros Hx. simpl. unfold bind, http_get. now rewrite Hx.
Qed.

(** X15. When four exchanges in a row fail at connection level,
    [fetch_html] gives up after exactly those four GETs: the first retry
    follows at once, the second after 0.7 * 2 seconds, the third after
    0.7 * 4, and the failure of the fourth exchange is logged and raised
    to the caller. *)
Theorem fetch_html_unreachable (env : Env) (u : str) (e1 e2 e3 e4 : Exc)
        (w : World) :
  get_exchange env (gets w) u = Fails e1 ->
  get_exchange env (1 + gets w) u = Fails e2 ->
  get_exchange env (2 + gets w) u = Fails e3 ->
  get_exchange env (3 + gets w) u = Fails e4 ->
  is_RequestException e4 = true ->
  fetch_html env u w
  = (Raise e4,
     mkWorld (seen w) (clock_reads w) (4 + gets w) (posts w)
             (trace w ++ [Log INFO (MsgFetching u);
                          HttpGet u;
                          HttpGet u;
                          Sleep (backoff_factor * 2);
                          HttpGet u;
                          Sleep (backoff_factor * 4);
                          HttpGet u;
                          Log ERROR (MsgFetchFailed u e4)])).
Proof.
  intros X1 X2 X3 X4 R4.
  assert (Hget : session_get env u (snd (log INFO (MsgFetching u) w))
                 = (Raise e4,
                    mkWorld (seen w) (clock_reads w) (4 + gets w) (posts w)
                            (trace w ++ [Log INFO (MsgFetching u);
                                         HttpGet u;
                                         HttpGet u;
                                         Sleep (backoff_factor * 2);
                                         HttpGet u;
                                         Sleep (backoff_factor * 4);
                                         HttpGet u]))).
  { unfold session_get. apply resolve_redirects_raise.
    unfold log at 1, emit at 1. cbn [snd]. unfold retry_total.
    erewrite urlopen_after_failure; [|exact X1].
    unfold bind at 1. change (sleep_backoff 1) with (@ret unit tt).
    unfold ret at 1. cbv beta iota.
    erewrite urlopen_after_failure; [|exact X2].
    unfold bind at 1.
    change (sleep_backoff 2) with (emit (Sleep (backoff_factor * 2))).
    unfold emit at 1. cbv beta iota.
    erewrite urlopen_after_failure; [|exact X3].
    unfold bind at 1.
    change (sleep_backoff 3) with (emit (Sleep (backoff_factor * 4))).
    unfold emit at 1. cbv beta iota.
    erewrite urlopen_exhausted; [|exact X4].
    cbn [seen clock_reads gets posts trace].
    rewrite <- !app_assoc. reflexivity. }
  unfold fetch_html. unfold bind at 1. unfold log at 1, emit at 1.
  cbv beta iota. unfold try_except. unfold bind at 1.
  unfold log at 1, emit at 1 in Hget. cbn [snd] in Hget. rewrite Hget.
  rewrite R4. unfold bind, log, emit, raise.
  cbn [seen clock_reads gets posts trace].
  rewrite <- !app_assoc. reflexivity.
Qed.

(** X16. A first reply with a status of the retry list (and no Retry-After
    header) is retried at once, without any sleep; when the second reply
    is outside the retry policy, below 400 and no redirect the session
    follows, [fetch_html] returns its body after exactly two GETs. *)
Theorem fetch_html_retries_at_once (env : Env) (u : str) (r1 r2 : Response)
        (w : World) :
  get_exchange env (gets w) u = Replies r1 ->
  Z_mem (status_code r1) status_forcelist = true ->
  retry_after_header r1 = None ->
  get_exchange env (1 + gets w) u = Replies r2 ->
  retryable (Replies r2) = false ->
  (status_code r2 < 400)%Z ->
  redirect_target r2 = None ->
  fetch_html env u w
  = (Ok (text r2),
     mkWorld (seen w) (clock_reads w) (2 + gets w) (posts w)
             (trace w ++ [Log INFO (MsgFetching u); HttpGet u; HttpGet u])).
Proof.
  intros X1 F1 H1 X2 R2 S2 D2.
  assert (Hget : session_get env u (snd (log INFO (MsgFetching u) w))
                 = (Ok r2, mkWorld (seen w) (clock_reads w) (2 + gets w)
                                   (posts w)
                                   (trace w ++ [Log INFO (MsgFetching u);
                                                HttpGet u; HttpGet u]))).
  { unfold session_get.
    erewrite resolve_redirects_final; [reflexivity| |exact D2].
    unfold retry_total. unfold log at 1, emit at 1. cbn [snd].
    erewrite urlopen_after_reply;
      [|exact X1|unfold is_retry; now rewrite F1].
    unfold bind at 1. unfold retry_sleep. rewrite H1.
    change (sleep_backoff 1) with (@ret unit tt). unfold ret at 1.
    cbv beta iota.
    erewrite urlopen_final; [|exact X2|exact R2].
    simpl. now rewrite <- !app_assoc. }
  rewrite (fetch_html_unfold _ _ _ Hget).
  replace (400 <=? status_code r2)%Z with false
    by (symmetry; apply Z.leb_gt; lia).
  reflexivity.
Qed.

(** ** Runner: a cycle never raises *)

(** X17. [run_once] never raises, whatever it meets: every exception of
    the cycle ends in its handler, which only logs.  So a run of cycles
    never stops on an error. *)
Theorem run_once_never_raises (envs : list Env) (env : Env) (w : World) :
  fst (run_once env w) = Ok tt /\ fst (run_cycles envs w) = Ok tt.
Proof.
  assert (H : forall env w, fst (run_once env w) = Ok tt).
  { clear. intros env w. unfold run_once, try_except.
    destruct ((html <- fetch_html env LIST_URL ;;
               items <- parse_list env html ;;
               run_items env items) w) as [[[]|e] w']; reflexivity. }
  split; [apply H|].
  revert w. induction envs as [|env0 rest IH]; intros w; simpl; [reflexivity|].
  unfold bind. specialize (H env0 w).
  destruct (run_once env0 w) as [[[]|e] w1]; simpl in H; [apply IH|discriminate].
Qed.

(** X18. When the fetch raises, the cycle ends before anything is parsed:
    [run_once] returns normally, its world is the one the fetch left plus
    one error line, and the table is the one it started with. *)
Theorem run_once_fetch_failed (env : Env) (e : Exc) (w w1 : World) :
  fetch_html env LIST_URL w = (Raise e, w1) ->
  run_once env w = (Ok tt, snd (log ERROR (MsgRunOnceFailed e) w1)) /\
  seen (snd (run_once env w)) = seen w.
Proof.
  intros Hf.
  assert (E : run_once env w = (Ok tt, snd (log ERROR (MsgRunOnceFailed e) w1))).
  { unfold run_once, try_except. unfold bind at 1. now rewrite Hf. }
  split; [exact E|]. rewrite E. simpl.
  pose proof (fetch_html_store env LIST_URL w) as S1. now rewrite Hf in S1.
Qed.

(** ** Runner: cycles whose notifications all return *)






(** ** Notifier: the payload *)

Lemma or_else_truthy (s default : str) :
  PyStr.truthy default = true -> PyStr.truthy (or_else s default) = true.
Proof. intros H. unfold or_else. now destruct (PyStr.truthy s) eqn:E. Qed.

(** X21. The payload [discord_send] builds always has no content and
    exactly one embed with three fields (price, status, author and time,
    in that order); none of the three field values is ever the empty
    string, a dash standing in for a missing price, an empty status list
    and a missing author and date; the embed gets a thumbnail exactly
    when the item has a non-empty [thumb]. *)
Theorem build_payload_shape (env : Env) (item : Item) (ts : Z) :
  exists e v1 v2 v3,
    build_payload env item ts = mkPayload None [e] /\
    e_title e = PyStr.strip (title item) /\
    e_url e = url item /\
    e_fields e = [mkField PRICE_NAME v1 true;
                  mkField STATUS_NAME v2 true;
                  mkField AUTHOR_NAME v3 false] /\
    PyStr.truthy v1 = true /\ PyStr.truthy v2 = true /\
    PyStr.truthy v3 = true /\
    (price item = None -> v1 = DASH) /\
    (status item = [] -> v2 = DASH) /\
    (e_thumbnail e <> None <->
     exists t, thumb item = Some t /\ PyStr.truthy t = true).
Proof.
  unfold build_payload. eexists _, _, _, _.
  split; [reflexivity|]. simpl.
  repeat split; try (apply or_else_truthy; reflexivity).
  - intros ->. reflexivity.
  - intros ->. reflexivity.
  - intros H. destruct (thumb item) as [t|]; [|contradiction].
    destruct (PyStr.truthy t) eqn:T; [now exists t|contradiction].
  - intros [t [-> T]]. rewrite T. discriminate.
Qed.

(** ** The further theorems at concrete inputs *)


Lemma notified_once_witness :
  date stamped_item <> None /\
  known_in (seen (snd (run_cycles [env_healthy; env_healthy] empty_world)))
           (id stamped_item) = true.
Proof.
  destruct (notified_once [env_healthy; env_healthy] empty_world)
    as [rows [evs [_ [T [_ [D K]]]]]].
  simpl (trace empty_world ++ evs) in T. split.
  - apply D. rewrite <- T. vm_compute.
    repeat (first [left; reflexivity | right]).
  - apply K. rewrite <- T. vm_compute. left. reflexivity.
Defined.


Lemma discord_send_delivers_witness :
  fst (discord_send env_healthy stamped_item empty_world) = Ok tt /\
  posts (snd (discord_send env_healthy stamped_item empty_world)) = 1%nat.
Proof.
  rewrite (@discord_send_delivers env_healthy stamped_item example_hook
             1700000000 (blank_reply 204) empty_world);
    [split; reflexivity | try reflexivity; simpl; lia ..].
Defined.

Lemma discord_send_default_wait_witness :
  fst (discord_send (env_flaky (Replies (blank_reply 429))) stamped_item
                    empty_world) = Ok tt /\
  sleeps (trace (snd (discord_send (env_flaky (Replies (blank_reply 429)))
                                   stamped_item empty_world)))
  = [1 + (1 # 4)].
Proof.
  rewrite (@discord_send_default_wait
             (env_flaky (Replies (blank_reply 429))) stamped_item example_hook
             1700000000 (blank_reply 429) (blank_reply 204) empty_world);
    [split; reflexivity | try reflexivity ..].
  - left. reflexivity.
  - simpl. lia.
Defined.

Lemma discord_send_gives_up_witness :
  fst (discord_send env_down stamped_item empty_world) = Raise ConnectionError /\
  sleeps (trace (snd (discord_send env_down stamped_item empty_world)))
  = [(3 # 2) * 1; (3 # 2) * 2].
Proof.
  rewrite (@discord_send_gives_up env_down stamped_item example_hook
             1700000000 ConnectionError ConnectionError ConnectionError
             empty_world);
    [split; reflexivity | reflexivity ..].
Defined.

Lemma discord_send_recovers_witness :
  fst (discord_send (env_flaky (Fails Timeout)) stamped_item empty_world)
  = Ok tt /\
  posts (snd (discord_send (env_flaky (Fails Timeout)) stamped_item
                           empty_world)) = 2%nat.
Proof.
  rewrite (@discord_send_recovers (env_flaky (Fails Timeout)) stamped_item
             example_hook 1700000000 Timeout (blank_reply 204) empty_world);
    [split; reflexivity | try reflexivity; simpl; lia ..].
Defined.

Lemma discord_send_bad_wait_witness :
  fst (discord_send
         (env_flaky (Replies (mkResponse 429 (PyStr.lit "[]") None
                                         JsonNotObject None)))
         stamped_item empty_world)
  = Raise AttributeError.
Proof.
  rewrite (@discord_send_bad_wait
             (env_flaky (Replies (mkResponse 429 (PyStr.lit "[]") None
                                             JsonNotObject None)))
             stamped_item example_hook 1700000000
             (mkResponse 429 (PyStr.lit "[]") None JsonNotObject None)
             AttributeError empty_world);
    reflexivity.
Defined.

Lemma fetch_html_single_exchange_witness :
  fst (fetch_html (env_status 200) LIST_URL empty_world) = Ok (PyStr.lit "body") /\
  fst (fetch_html (env_status 404) LIST_URL empty_world) = Raise (HTTPError 404) /\
  fst (fetch_html (env_status 999) LIST_URL empty_world) = Ok (PyStr.lit "body").
Proof.
  split; [|split].
  - destruct (@fetch_html_single_exchange (env_status 200) LIST_URL
                (blank_reply 200) empty_world eq_refl eq_refl eq_refl) as [H _].
    rewrite H; [reflexivity|simpl; lia].
  - destruct (@fetch_html_single_exchange (env_status 404) LIST_URL
                (blank_reply 404) empty_world eq_refl eq_refl eq_refl) as [_ [H _]].
    rewrite H; [reflexivity|simpl; lia].
  - destruct (@fetch_html_single_exchange (env_status 999) LIST_URL
                (blank_reply 999) empty_world eq_refl eq_refl eq_refl) as [_ [_ H]].
    rewrite H; [reflexivity|simpl; lia].
Defined.

Lemma fetch_html_unreachable_witness :
  fst (fetch_html env_unreachable LIST_URL empty_world) = Raise ConnectionError /\
  gets (snd (fetch_html env_unreachable LIST_URL empty_world)) = 4%nat.
Proof.
  rewrite (@fetch_html_unreachable env_unreachable LIST_URL ConnectionError
             ConnectionError ConnectionError ConnectionError empty_world);
    [split; reflexivity | reflexivity ..].
Defined.

Lemma fetch_html_retries_at_once_witness :
  fst (fetch_html (env_flaky (Fails Timeout)) LIST_URL empty_world)
  = Ok (PyStr.lit "body") /\
  sleeps (trace (snd (fetch_html (env_flaky (Fails Timeout)) LIST_URL
                                 empty_world))) = [].
Proof.
  rewrite (@fetch_html_retries_at_once (env_flaky (Fails Timeout)) LIST_URL
             (blank_reply 503) (blank_reply 200) empty_world);
    [split; reflexivity | try reflexivity; simpl; lia ..].
Defined.

Lemma run_once_fetch_failed_witness :
  seen (snd (run_once (env_status 404) empty_world)) = [] /\
  fst (run_once (env_status 404) empty_world) = Ok tt.
Proof.
  edestruct (@run_once_fetch_failed (env_status 404) (HTTPError 404)
                                    empty_world) as [A B].
  - vm_compute. reflexivity.
  - split; [exact B|]. rewrite A. reflexivity.
Defined.



Lemma build_payload_shape_witness :
  exists e v3,
    build_payload env_down bare_item 0 = mkPayload None [e] /\
    e_fields e = [mkField PRICE_NAME DASH true;
                  mkField STATUS_NAME DASH true;
                  mkField AUTHOR_NAME v3 false] /\
    e_thumbnail e = None.
Proof.
  destruct (build_payload_shape env_down bare_item 0)
    as [e [v1 [v2 [v3 [E [_ [_ [F [_ [_ [_ [H1 [H2 H3]]]]]]]]]]]]].
  rewrite (H1 eq_refl), (H2 eq_refl) in F.
  exists e, v3. split; [exact E|]. split; [exact F|].
  destruct (e_thumbnail e) eqn:T; [|reflexivity].
  destruct (proj1 H3) as [t [Ht _]]; [discriminate|]. discriminate Ht.
Defined.
